(** * The data-access layer of the schedule bot: [app/db/crud/schedule.py]

    A shallow embedding of the accessors of [src/app/db/crud/schedule.py]
    and the properties of the schedule cache, the user lookup and the daily
    lesson aggregator.

    The relational store is a list of rows per table, in the order a scan
    returns them; [select(...).first()] is the first row of the scan that
    satisfies the [where] clauses.  Names imported from modules that are not
    part of the sources read here ([get_week_start], the column defaults of
    the ORM models, the primary-key allocation of the storage layer) and the
    two library parsers ([json.loads], [datetime.fromisoformat]) are section
    variables; executable instances of the parsers come before the accessors
    and serve the worked examples at the end. *)

From Stdlib Require Import ZArith List Lia Ascii.
From stdpp Require Import base option list gmap strings.

Local Open Scope Z_scope.

(** ** Calendar dates ([datetime.date])

    The proleptic Gregorian arithmetic of CPython's [datetime] module, on
    which [date + timedelta(days=1)] and [date == date] rest. *)

Module Date.

Record t := mk { year : Z; month : Z; day : Z }.

#[global] Instance eq_dec : EqDecision t.
Proof. solve_decision. Defined.

Definition MINYEAR : Z := 1.
Definition MAXYEAR : Z := 9999.
Definition MAXORDINAL : Z := 3652059.

Definition is_leap (y : Z) : bool :=
  (y mod 4 =? 0) && (negb (y mod 100 =? 0) || (y mod 400 =? 0)).

Definition DAYS_IN_MONTH (m : Z) : Z :=
  match m with
  | 1 => 31 | 2 => 28 | 3 => 31 | 4 => 30 | 5 => 31 | 6 => 30
  | 7 => 31 | 8 => 31 | 9 => 30 | 10 => 31 | 11 => 30 | 12 => 31
  | _ => -1
  end.

Definition DAYS_BEFORE_MONTH (m : Z) : Z :=
  match m with
  | 1 => 0 | 2 => 31 | 3 => 59 | 4 => 90 | 5 => 120 | 6 => 151
  | 7 => 181 | 8 => 212 | 9 => 243 | 10 => 273 | 11 => 304 | 12 => 334
  | _ => -1
  end.

Definition days_before_year (y : Z) : Z :=
  let y := y - 1 in y * 365 + y / 4 - y / 100 + y / 400.

Definition days_in_month (y m : Z) : Z :=
  if (m =? 2) && is_leap y then 29 else DAYS_IN_MONTH m.

Definition days_before_month (y m : Z) : Z :=
  DAYS_BEFORE_MONTH m + (if (2 <? m) && is_leap y then 1 else 0).

Definition ymd2ord (y m d : Z) : Z :=
  days_before_year y + days_before_month y m + d.

Definition DI400Y : Z := 146097.
Definition DI100Y : Z := 36524.
Definition DI4Y : Z := 1461.

Definition ord2ymd (n : Z) : Z * Z * Z :=
  let n := n - 1 in
  let n400 := n / DI400Y in let n := n mod DI400Y in
  let y := n400 * 400 + 1 in
  let n100 := n / DI100Y in let n := n mod DI100Y in
  let n4 := n / DI4Y in let n := n mod DI4Y in
  let n1 := n / 365 in let n := n mod 365 in
  let y := y + n100 * 100 + n4 * 4 + n1 in
  if (n1 =? 4) || (n100 =? 4) then (y - 1, 12, 31)
  else
    let leapyear := (n1 =? 3) && (negb (n4 =? 24) || (n100 =? 3)) in
    let m := Z.shiftr (n + 50) 5 in
    let preceding :=
      DAYS_BEFORE_MONTH m + (if (2 <? m) && leapyear then 1 else 0) in
    if n <? preceding then
      let m := m - 1 in
      let preceding :=
        preceding
        - (DAYS_IN_MONTH m + (if (m =? 2) && leapyear then 1 else 0)) in
      (y, m, n - preceding + 1)
    else (y, m, n - preceding + 1).

(** [date(year, month, day)]: [None] stands for the [ValueError] of the
    range checks. *)
Definition make (y m d : Z) : option t :=
  if (MINYEAR <=? y) && (y <=? MAXYEAR) && (1 <=? m) && (m <=? 12)
     && (1 <=? d) && (d <=? days_in_month y m)
  then Some (mk y m d) else None.

Definition toordinal (x : t) : Z := ymd2ord (year x) (month x) (day x).

Definition fromordinal (n : Z) : t :=
  let '(y, m, d) := ord2ymd n in mk y m d.

(** [x + timedelta(days=k)]: [None] stands for [OverflowError]. *)
Definition add_days (x : t) (k : Z) : option t :=
  let o := toordinal x + k in
  if (0 <? o) && (o <=? MAXORDINAL) then Some (fromordinal o) else None.

End Date.

(** ** The tables

    [id] is the primary key of each table.  [G] is the type of the group
    identifier column, which the accessors only compare and use as a
    dictionary key; [updated_at] is a time in seconds, or null. *)

Module ScheduleCache.
Record t (G : Type) := mk
  { id : Z;
    group_id : G;
    week_start : Date.t;
    data : string;
    updated_at : option Z }.
Arguments mk {G} _ _ _ _ _.
Arguments id {G} _.
Arguments group_id {G} _.
Arguments week_start {G} _.
Arguments data {G} _.
Arguments updated_at {G} _.
End ScheduleCache.

Module User.
Record t (G : Type) := mk
  { id : Z;
    telegram_id : Z;
    group_id : option G }.
Arguments mk {G} _ _ _.
Arguments id {G} _.
Arguments telegram_id {G} _.
Arguments group_id {G} _.
End User.

(** Modelled from the spec: the ORM models are not among the sources; the
    spec's data model gives [UserSettings] a reference to its user, a
    language and the two digest flags, and the queries read these columns. *)
Module UserSettings.
Record t := mk
  { user_id : Z;
    language : string;
    today_schedule_digest : bool;
    daily_digest : bool }.
End UserSettings.

(** ** JSON values

    What [json.loads] returns: [None], a [bool], a number, a [str], a [list]
    or a [dict].  A number is kept as the text of its literal (no accessor
    looks inside one), text is kept in its UTF-8 encoding, and a [dict] is the
    list of its items in insertion order, with distinct keys. *)

#[local] Set Warnings "-register-all".

Inductive json : Type :=
| JNull
| JBool (b : bool)
| JNum (lexeme : string)
| JStr (s : string)
| JArr (items : list json)
| JObj (members : list (string * json)).

(** ** Executable instances of the two library parsers

    [Json.loads] follows the decoder of the [json] module (its scanner, its
    number pattern, the strict string scanner, arrays and objects); its fuel
    is a bound on the nesting that no text of that length reaches.
    [Iso.fromisoformat] reads the [YYYY-MM-DD] form of a date, the form every
    version of [datetime.fromisoformat] accepts for a date without time; the
    basic and week forms that later versions read as well are left out.  The
    properties of the accessors below are proved for any parsers; these
    instances serve the worked examples. *)

Module Json.

Definition is_ws (c : ascii) : bool :=
  match c with
  | " " | "009" | "010" | "013" => true
  | _ => false
  end%char.

Fixpoint skip_ws (s : string) : string :=
  match s with
  | String c rest => if is_ws c then skip_ws rest else s
  | EmptyString => s
  end.

Definition code (c : ascii) : Z := Z.of_N (N_of_ascii c).
Definition chr (n : Z) : ascii := ascii_of_N (Z.to_N n).

Definition is_digit (c : ascii) : bool := (48 <=? code c) && (code c <=? 57).

Fixpoint span_digits (s : string) : string * string :=
  match s with
  | String c rest =>
      if is_digit c
      then let '(ds, r) := span_digits rest in (String c ds, r)
      else (EmptyString, s)
  | EmptyString => (EmptyString, s)
  end.

Definition scan_int (s : string) : option (string * string) :=
  let '(sign, s1) :=
    match s with
    | String "-"%char r => ("-"%string, r)
    | _ => (EmptyString, s)
    end in
  match s1 with
  | String "0"%char r => Some (sign +:+ "0", r)
  | String c _ =>
      if is_digit c
      then let '(ds, r) := span_digits s1 in Some (sign +:+ ds, r)
      else None
  | EmptyString => None
  end.

Definition scan_frac (s : string) : string * string :=
  match s with
  | String "."%char r =>
      match span_digits r with
      | (EmptyString, _) => (EmptyString, s)
      | (ds, r') => (String "."%char ds, r')
      end
  | _ => (EmptyString, s)
  end.

Definition scan_exp (s : string) : string * string :=
  match s with
  | String e r =>
      if bool_decide (e = "e"%char) || bool_decide (e = "E"%char) then
        let '(sg, r1) :=
          match r with
          | String "+"%char r' => ("+"%string, r')
          | String "-"%char r' => ("-"%string, r')
          | _ => (EmptyString, r)
          end in
        match span_digits r1 with
        | (EmptyString, _) => (EmptyString, s)
        | (ds, r') => (String e (sg +:+ ds), r')
        end
      else (EmptyString, s)
  | EmptyString => (EmptyString, s)
  end.

Definition scan_number (s : string) : option (json * string) :=
  '(i, r) ← scan_int s;
  let '(f, r) := scan_frac r in
  let '(e, r) := scan_exp r in
  Some (JNum (i +:+ f +:+ e), r).

Fixpoint strip_prefix (p s : string) : option string :=
  match p, s with
  | EmptyString, _ => Some s
  | String a p', String b s' =>
      if bool_decide (a = b) then strip_prefix p' s' else None
  | String _ _, EmptyString => None
  end.

Definition hex_digit (c : ascii) : option Z :=
  let n := code c in
  if (48 <=? n) && (n <=? 57) then Some (n - 48)
  else if (97 <=? n) && (n <=? 102) then Some (n - 87)
  else if (65 <=? n) && (n <=? 70) then Some (n - 55)
  else None.

Definition hex4 (a b c d : ascii) : option Z :=
  x ← hex_digit a; y ← hex_digit b; z ← hex_digit c; w ← hex_digit d;
  Some (((x * 16 + y) * 16 + z) * 16 + w).

Definition utf8 (cp : Z) (tail : string) : string :=
  if cp <? 128 then String (chr cp) tail
  else if cp <? 2048 then
    String (chr (192 + cp / 64)) (String (chr (128 + cp mod 64)) tail)
  else if cp <? 65536 then
    String (chr (224 + cp / 4096))
      (String (chr (128 + (cp / 64) mod 64))
         (String (chr (128 + cp mod 64)) tail))
  else
    String (chr (240 + cp / 262144))
      (String (chr (128 + (cp / 4096) mod 64))
         (String (chr (128 + (cp / 64) mod 64))
            (String (chr (128 + cp mod 64)) tail))).

Definition unescape (e : ascii) : option ascii :=
  match e with
  | "034" => Some "034"
  | "\" => Some "\"
  | "/" => Some "/"
  | "b" => Some "008"
  | "f" => Some "012"
  | "n" => Some "010"
  | "r" => Some "013"
  | "t" => Some "009"
  | _ => None
  end%char.

Fixpoint scanstring (s : string) : option (string * string) :=
  match s with
  | EmptyString => None
  | String c rest =>
      if bool_decide (c = "034"%char) then Some (EmptyString, rest)
      else if bool_decide (c = "\"%char) then
        match rest with
        | String "u"%char (String a (String b (String c' (String d rest')))) =>
            uni ← hex4 a b c' d;
            match rest' with
            | String "\"%char (String "u"%char
                (String a2 (String b2 (String c2 (String d2 rest''))))) =>
                if (55296 <=? uni) && (uni <=? 56319) then
                  uni2 ← hex4 a2 b2 c2 d2;
                  if (56320 <=? uni2) && (uni2 <=? 57343) then
                    '(str, r) ← scanstring rest'';
                    Some (utf8 (65536 + ((uni - 55296) * 1024 + (uni2 - 56320))) str, r)
                  else
                    '(str, r) ← scanstring rest';
                    Some (utf8 uni str, r)
                else
                  '(str, r) ← scanstring rest';
                  Some (utf8 uni str, r)
            | _ =>
                '(str, r) ← scanstring rest';
                Some (utf8 uni str, r)
            end
        | String e rest' =>
            ch ← unescape e;
            '(str, r) ← scanstring rest';
            Some (String ch str, r)
        | EmptyString => None
        end
      else if code c <? 32 then None
      else
        '(str, r) ← scanstring rest;
        Some (String c str, r)
  end.

Fixpoint dict_set (k : string) (v : json) (d : list (string * json))
  : list (string * json) :=
  match d with
  | [] => [(k, v)]
  | (k', v') :: d' =>
      if bool_decide (k' = k) then (k', v) :: d' else (k', v') :: dict_set k v d'
  end.

Fixpoint scan_once (fuel : nat) (s : string) : option (json * string) :=
  match fuel with
  | O => None
  | S fuel =>
      match s with
      | String "034"%char r =>
          '(str, r) ← scanstring r; Some (JStr str, r)
      | String "{"%char r =>
          match skip_ws r with
          | String "}"%char r => Some (JObj [], r)
          | r => '(d, r) ← scan_members fuel r []; Some (JObj d, r)
          end
      | String "["%char r =>
          match skip_ws r with
          | String "]"%char r => Some (JArr [], r)
          | r => '(vs, r) ← scan_elems fuel r; Some (JArr vs, r)
          end
      | _ =>
          match strip_prefix "null" s, strip_prefix "true" s,
                strip_prefix "false" s with
          | Some r, _, _ => Some (JNull, r)
          | _, Some r, _ => Some (JBool true, r)
          | _, _, Some r => Some (JBool false, r)
          | None, None, None =>
              match scan_number s with
              | Some res => Some res
              | None =>
                  match strip_prefix "NaN" s, strip_prefix "Infinity" s,
                        strip_prefix "-Infinity" s with
                  | Some r, _, _ => Some (JNum "NaN", r)
                  | _, Some r, _ => Some (JNum "Infinity", r)
                  | _, _, Some r => Some (JNum "-Infinity", r)
                  | None, None, None => None
                  end
              end
          end
      end
  end
with scan_elems (fuel : nat) (s : string) : option (list json * string) :=
  match fuel with
  | O => None
  | S fuel =>
      '(v, r) ← scan_once fuel s;
      match skip_ws r with
      | String "]"%char r => Some ([v], r)
      | String ","%char r =>
          '(vs, r) ← scan_elems fuel (skip_ws r); Some (v :: vs, r)
      | _ => None
      end
  end
with scan_members (fuel : nat) (s : string) (d : list (string * json))
  : option (list (string * json) * string) :=
  match fuel with
  | O => None
  | S fuel =>
      match s with
      | String "034"%char r =>
          '(k, r) ← scanstring r;
          match skip_ws r with
          | String ":"%char r =>
              '(v, r) ← scan_once fuel (skip_ws r);
              let d := dict_set k v d in
              match skip_ws r with
              | String "}"%char r => Some (d, r)
              | String ","%char r => scan_members fuel (skip_ws r) d
              | _ => None
              end
          | _ => None
          end
      | _ => None
      end
  end.

Definition loads (s : string) : option json :=
  '(v, r) ← scan_once (2 * String.length s + 2) (skip_ws s);
  match skip_ws r with
  | EmptyString => Some v
  | _ => None
  end.

End Json.

Module Iso.

Definition digit (c : ascii) : option Z :=
  if Json.is_digit c then Some (Json.code c - 48) else None.

Definition fromisoformat (s : string) : option Date.t :=
  match s with
  | String y1 (String y2 (String y3 (String y4 (String "-"%char
      (String m1 (String m2 (String "-"%char
        (String d1 (String d2 EmptyString))))))))) =>
      a ← digit y1; b ← digit y2; c ← digit y3; d ← digit y4;
      e ← digit m1; f ← digit m2; g ← digit d1; h ← digit d2;
      Date.make (((a * 10 + b) * 10 + c) * 10 + d) (e * 10 + f) (g * 10 + h)
  | _ => None
  end.

End Iso.

(** Modelled from the spec: [app.utils.schedule.get_week_start] is not among
    the sources; the glossary describes it as the Monday of the week that
    contains the date.  It is the instance of the worked examples only. *)
Definition monday_of (d : Date.t) : Date.t :=
  let o := Date.toordinal d in
  Date.fromordinal (o - (o + 6) mod 7).

(** Text with an apostrophe standing for the double quote, for the payloads
    of the worked examples. *)
Fixpoint quoted (s : string) : string :=
  match s with
  | EmptyString => EmptyString
  | String c rest =>
      String (if bool_decide (c = "'"%char) then "034"%char else c)
        (quoted rest)
  end.

(** ** The connection string ([app/db/database.py])

    [str.replace(old, new)] for a non-empty [old]: the text is read from the
    left, every occurrence found is replaced and reading goes on behind it.
    [skip] counts the characters of the occurrence still to be passed. *)

Fixpoint replace_from (old new : string) (skip : nat) (s : string) : string :=
  match s with
  | EmptyString => EmptyString
  | String c rest =>
      match skip with
      | S k => replace_from old new k rest
      | O =>
          if String.prefix old s
          then new +:+ replace_from old new (String.length old - 1) rest
          else String c (replace_from old new 0 rest)
      end
  end.

Definition str_replace (old new s : string) : string :=
  replace_from old new 0 s.

(** [DATABASE_URL], from the configured [settings.DATABASE_URL]. *)
Definition DATABASE_URL (settings_DATABASE_URL : string) : string :=
  str_replace "postgresql://" "postgresql+asyncpg://" settings_DATABASE_URL.

(** A text has an occurrence of [old] somewhere. *)
Fixpoint occurs (old s : string) : bool :=
  String.prefix old s
  || match s with
     | EmptyString => false
     | String _ rest => occurs old rest
     end.

(** ** Data of the worked examples

    A group, a target date, the storage layer's defaults, a lesson dated the
    evening before the target date, and rows around it. *)

Definition ex_group : string := "CS-101".
Definition ex_target : Date.t := Date.mk 2024 3 15.
Definition ex_week : Date.t := Date.mk 2024 3 11.

Definition ex_updated_at_default (now : Z) : option Z := Some now.
Definition ex_next_id (tbl : list (ScheduleCache.t string)) : Z :=
  1 + fold_right Z.max 0 (map ScheduleCache.id tbl).

Definition ex_lesson : json :=
  JObj [("scheduleDate", JStr "2024-03-14T19:00:00");
        ("title", JStr "Algebra")].

Definition ex_payload : string :=
  quoted "[{'scheduleDate': '2024-03-14T19:00:00', 'title': 'Algebra'}]".

(** The lesson, then a lesson without a date. *)
Definition ex_payload_cut : string :=
  quoted "[{'scheduleDate': '2024-03-14T19:00:00', 'title': 'Algebra'}, {}]".

(** A lesson without a date, then the lesson. *)
Definition ex_payload_late : string :=
  quoted "[{}, {'scheduleDate': '2024-03-14T19:00:00', 'title': 'Algebra'}]".

Definition ex_row : ScheduleCache.t string :=
  ScheduleCache.mk 1 ex_group ex_week ex_payload (Some 1710400000).
Definition ex_row_cut : ScheduleCache.t string :=
  ScheduleCache.mk 1 ex_group ex_week ex_payload_cut (Some 1710400000).
Definition ex_row_late : ScheduleCache.t string :=
  ScheduleCache.mk 1 ex_group ex_week ex_payload_late (Some 1710400000).
Definition ex_row_broken : ScheduleCache.t string :=
  ScheduleCache.mk 2 "CS-102" ex_week "not json" (Some 1710400000).
Definition ex_row_other : ScheduleCache.t string :=
  ScheduleCache.mk 2 "CS-102" ex_week "[]" (Some 1710300000).


(** A payload that is one lesson object instead of a list of lessons. *)
Definition ex_row_object : ScheduleCache.t string :=
  ScheduleCache.mk 3 ex_group ex_week
    (quoted "{'scheduleDate': '2024-03-14T19:00:00'}") (Some 1710400000).
(** The row of [ex_row] as cached under another id, for an older week. *)
Definition ex_row_old_week : ScheduleCache.t string :=
  ScheduleCache.mk 9 ex_group (Date.mk 2023 1 2) ex_payload None.

Definition ex_user : User.t string := User.mk 1 1001 (Some ex_group).
Definition ex_user_no_group : User.t string := User.mk 2 1002 None.
Definition ex_user_other : User.t string := User.mk 3 1003 (Some "CS-102").

Definition ex_settings : list UserSettings.t :=
  [UserSettings.mk 1 "en" true true;
   UserSettings.mk 2 "ru" true false;
   UserSettings.mk 3 "uz" false true].

Section Accessors.

Context `{Countable G}.

(** [app.utils.schedule.get_week_start], the column default of
    [ScheduleCache.updated_at] (given the clock) and the key the storage
    layer gives to an inserted row. *)
Variable get_week_start : Date.t -> Date.t.
Variable updated_at_default : Z -> option Z.
Variable next_id : list (ScheduleCache.t G) -> Z.

(** [json.loads] and [datetime.fromisoformat(...).date()] on a [str]; [None]
    stands for any exception they raise. *)
Variable json_loads : string -> option json.
Variable fromisoformat : string -> option Date.t.

Abbreviation row := (ScheduleCache.t G).
Abbreviation table := (list (ScheduleCache.t G)).

(** *** The schedule cache *)

(** [.where(ScheduleCache.group_id == group_id)
     .where(ScheduleCache.week_start == week_start)] *)
Definition where_key (group_id : G) (week_start : Date.t) (r : row) : bool :=
  bool_decide (ScheduleCache.group_id r = group_id)
  && bool_decide (ScheduleCache.week_start r = week_start).

Definition get_cached_schedule
    (tbl : table) (group_id : G) (target_date : Date.t) : option row :=
  let week_start := get_week_start target_date in
  let cache := List.find (where_key group_id week_start) tbl in
  match cache with
  | None => None
  | Some cache => Some cache
  end.

(** [update(ScheduleCache).where(ScheduleCache.id == i)
     .values(data=data, updated_at=now)].  The updated row keeps its place
    in the list; where an unordered scan of the store returns it after the
    update is not modelled. *)
Definition set_values (data : string) (now : Z) (r : row) : row :=
  ScheduleCache.mk (ScheduleCache.id r) (ScheduleCache.group_id r)
    (ScheduleCache.week_start r) data (Some now).

Definition update_where_id (i : Z) (data : string) (now : Z) (tbl : table)
  : table :=
  map (fun r => if ScheduleCache.id r =? i then set_values data now r else r)
    tbl.

(** [now] is the value of [datetime.utcnow()] at the call; the result is
    the table after [session.commit()]. *)
Definition save_schedule_to_cache
    (now : Z) (tbl : table) (group_id : G) (target_date : Date.t)
    (data : string) : table :=
  let week_start := get_week_start target_date in
  let existing := List.find (where_key group_id week_start) tbl in
  match existing with
  | Some existing =>
      update_where_id (ScheduleCache.id existing) data now tbl
  | None =>
      let new_cache :=
        ScheduleCache.mk (next_id tbl) group_id week_start data
          (updated_at_default now) in
      tbl ++ [new_cache]
  end.

(** The key of the cache and the two constraints of the table. *)
Definition key (r : row) : G * Date.t :=
  (ScheduleCache.group_id r, ScheduleCache.week_start r).

Definition unique_keys (tbl : table) : Prop := NoDup (map key tbl).
Definition unique_ids (tbl : table) : Prop :=
  NoDup (map ScheduleCache.id tbl).

(** *** The user directory *)

Definition get_user_group_id
    (users : list (User.t G)) (telegram_id : Z) : option G :=
  (* [result.scalar()]: the column of the first row, [None] without a row *)
  let group_id :=
    match List.find (fun u => User.telegram_id u =? telegram_id) users with
    | Some u => User.group_id u
    | None => None
    end in
  match group_id with
  | None => None
  | Some group_id => Some group_id
  end.

(** *** The digest subscribers

    [.join(UserSettings, User.id == UserSettings.user_id)]: the pairs of a
    user and a settings row that refers to it, users in the order of their
    scan and, for one user, settings rows in the order of theirs. *)
Definition join_settings
    (users : list (User.t G)) (settings : list UserSettings.t)
  : list (User.t G * UserSettings.t) :=
  flat_map
    (fun u =>
       map (pair u)
         (List.filter (fun s => User.id u =? UserSettings.user_id s) settings))
    users.

Definition get_users_with_today_digest
    (users : list (User.t G)) (settings : list UserSettings.t)
  : list (Z * option G * string) :=
  map (fun us =>
         (User.telegram_id (fst us), User.group_id (fst us),
          UserSettings.language (snd us)))
    (List.filter (fun us => UserSettings.today_schedule_digest (snd us))
       (join_settings users settings)).

Definition get_students_by_group_with_digest
    (users : list (User.t G)) (settings : list UserSettings.t) (group_id : G)
  : list Z :=
  map (fun us => User.telegram_id (fst us))
    (List.filter
       (fun us =>
          bool_decide (User.group_id (fst us) = Some group_id)
          && UserSettings.daily_digest (snd us))
       (join_settings users settings)).

(** *** The daily lesson aggregator

    An exception raised inside the [try] block is [None]; the handler logs
    and goes on with the next row, and what the block appended to [grouped]
    before the exception stays appended. *)

(** [lesson.get(k, default)]: only a [dict] has the method. *)
Definition lesson_get (lesson : json) (k : string) (default : json)
  : option json :=
  match lesson with
  | JObj members =>
      Some (match List.find (fun kv => bool_decide (fst kv = k)) members with
            | Some kv => snd kv
            | None => default
            end)
  | _ => None
  end.

(** [v[:n]]: a [str] or a [list] can be sliced. *)
Definition slice_to (n : nat) (v : json) : option json :=
  match v with
  | JStr s => Some (JStr (String.substring 0 n s))
  | JArr items => Some (JArr (take n items))
  | _ => None
  end.

(** [datetime.fromisoformat(v).date()]: the argument must be a [str]. *)
Definition fromisoformat_date (v : json) : option Date.t :=
  match v with
  | JStr s => fromisoformat s
  | _ => None
  end.

Definition lesson_date (lesson : json) : option Date.t :=
  v ← lesson_get lesson "scheduleDate" (JStr "");
  raw_date ← slice_to 10 v;
  d ← fromisoformat_date raw_date;
  Date.add_days d 1.

(** [for lesson in lessons]: what iterating the decoded payload yields. *)
Definition py_iter (v : json) : option (list json) :=
  match v with
  | JArr items => Some items
  | JObj members => Some (map (fun kv => JStr (fst kv)) members)
  | JStr s =>
      Some (map (fun c => JStr (String c EmptyString)) (String.list_ascii_of_string s))
  | _ => None
  end.

Record scan_state := ScanState
  { grouped : gmap G (list json);
    count : Z }.

(** [grouped[g].append(lesson)] on a [defaultdict(list)]; [count += 1]. *)
Definition append_lesson (g : G) (lesson : json) (st : scan_state)
  : scan_state :=
  ScanState (<[g := default [] (grouped st !! g) ++ [lesson]]> (grouped st))
    (count st + 1).

(** The inner loop; the flag is [false] when a lesson raised. *)
Fixpoint for_lessons (target_date : Date.t) (g : G) (lessons : list json)
    (st : scan_state) : scan_state * bool :=
  match lessons with
  | [] => (st, true)
  | lesson :: rest =>
      match lesson_date lesson with
      | None => (st, false)
      | Some lesson_date =>
          for_lessons target_date g rest
            (if bool_decide (lesson_date = target_date)
             then append_lesson g lesson st else st)
      end
  end.

(** One turn of [for row in rows], with its [try] and [except]. *)
Definition for_row (target_date : Date.t) (st : scan_state)
    (r : ScheduleCache.t G) : scan_state :=
  match json_loads (ScheduleCache.data r) with
  | None => st
  | Some lessons =>
      match py_iter lessons with
      | None => st
      | Some items =>
          fst (for_lessons target_date (ScheduleCache.group_id r) items st)
      end
  end.

Definition scan_rows (target_date : Date.t) (rows : list (ScheduleCache.t G))
  : scan_state :=
  fold_left (for_row target_date) rows (ScanState ∅ 0).

Definition get_all_group_schedules_today
    (rows : list (ScheduleCache.t G)) (target_date : Date.t)
  : gmap G (list json) :=
  grouped (scan_rows target_date rows).

(** *** Notions the statements use *)

(** The list a key of the result stands for ([[]] for a missing key). *)
Definition bucket (m : gmap G (list json)) (g : G) : list json :=
  default [] (m !! g).

(** The lessons of a payload that the loop gets to: those before the first
    lesson on which the body raises. *)
Fixpoint reached (lessons : list json) : list json :=
  match lessons with
  | [] => []
  | lesson :: rest =>
      match lesson_date lesson with
      | Some _ => lesson :: reached rest
      | None => []
      end
  end.

Definition on_date (target_date : Date.t) (lesson : json) : bool :=
  bool_decide (lesson_date lesson = Some target_date).

(** The lessons a row adds to its group's list. *)
Definition row_lessons (target_date : Date.t) (r : ScheduleCache.t G)
  : list json :=
  match json_loads (ScheduleCache.data r) ≫= py_iter with
  | Some items => List.filter (on_date target_date) (reached items)
  | None => []
  end.

(** Appending a run of lessons to one group's list. *)
Definition append_all (g : G) (lessons : list json) (st : scan_state)
  : scan_state :=
  fold_left (fun st lesson => append_lesson g lesson st) lessons st.


(** The number of lessons a result holds, over all its keys. *)
Definition lessons_total (m : gmap G (list json)) : Z :=
  map_fold (fun _ l n => n + Z.of_nat (length l)) 0 m.

Definition rows_of (g : G) (rows : list (ScheduleCache.t G))
  : list (ScheduleCache.t G) :=
  List.filter (fun r => bool_decide (ScheduleCache.group_id r = g)) rows.

(** *** Helper lemmas *)

Lemma where_key_true g ws r :
  where_key g ws r = true <-> key r = (g, ws).
Proof.
  unfold where_key, key. rewrite andb_true_iff, !bool_decide_eq_true.
  split; [intros [-> ->]; reflexivity | intros [= -> ->]; auto].
Qed.

Lemma set_values_key data now r : key (set_values data now r) = key r.
Proof. reflexivity. Qed.

Lemma update_where_id_keys i data now tbl :
  map key (update_where_id i data now tbl) = map key tbl.
Proof.
  unfold update_where_id. rewrite map_map. apply map_ext.
  intros r. destruct (ScheduleCache.id r =? i); reflexivity.
Qed.

Lemma update_where_id_ids i data now tbl :
  map ScheduleCache.id (update_where_id i data now tbl)
  = map ScheduleCache.id tbl.
Proof.
  unfold update_where_id. rewrite map_map. apply map_ext.
  intros r. destruct (ScheduleCache.id r =? i); reflexivity.
Qed.

Lemma update_where_id_length i data now tbl :
  length (update_where_id i data now tbl) = length tbl.
Proof. apply length_map. Qed.

Lemma find_none_key g ws tbl :
  List.find (where_key g ws) tbl = None -> ~ In (g, ws) (map key tbl).
Proof.
  intros Hf Hin. apply in_map_iff in Hin as (r & Hk & Hr).
  apply (find_none _ _ Hf) in Hr.
  apply where_key_true in Hk. congruence.
Qed.

(** The scan finds the same position before and after the update: the
    update keeps every row's key and hits the row it was computed from. *)
Lemma find_update_where_id g ws e data now tbl :
  List.find (where_key g ws) tbl = Some e ->
  List.find (where_key g ws)
    (update_where_id (ScheduleCache.id e) data now tbl)
  = Some (set_values data now e).
Proof.
  induction tbl as [|r tbl IH]; simpl; [discriminate|].
  destruct (where_key g ws r) eqn:Hr.
  - intros [= ->]. rewrite Z.eqb_refl. simpl.
    assert (He : where_key g ws (set_values data now e) = true).
    { apply where_key_true. rewrite set_values_key.
      now apply where_key_true. }
    now rewrite He.
  - intros Hf.
    assert (Hr' : where_key g ws
              (if ScheduleCache.id r =? ScheduleCache.id e
               then set_values data now r else r) = false).
    { destruct (ScheduleCache.id r =? ScheduleCache.id e); [|exact Hr].
      destruct (where_key g ws (set_values data now r)) eqn:E; [|reflexivity].
      apply where_key_true in E. rewrite set_values_key in E.
      apply where_key_true in E. congruence. }
    rewrite Hr'. now apply IH.
Qed.

Lemma find_app_new g ws tbl r :
  List.find (where_key g ws) tbl = None ->
  key r = (g, ws) ->
  List.find (where_key g ws) (tbl ++ [r]) = Some r.
Proof.
  intros Hf Hk. induction tbl as [|x tbl IH]; simpl in *.
  - apply where_key_true in Hk. now rewrite Hk.
  - destruct (where_key g ws x); [discriminate|]. now apply IH.
Qed.

(** What [get] reads back after a [put], whichever branch the [put] took. *)
Lemma get_after_save now tbl g d data :
  exists r,
    get_cached_schedule (save_schedule_to_cache now tbl g d data) g d
    = Some r
    /\ ScheduleCache.data r = data
    /\ key r = (g, get_week_start d).
Proof.
  unfold get_cached_schedule, save_schedule_to_cache.
  destruct (List.find (where_key g (get_week_start d)) tbl) as [e|] eqn:Hf.
  - rewrite (find_update_where_id _ _ _ data now _ Hf).
    eexists; split; [reflexivity|]. split; [reflexivity|].
    rewrite set_values_key. apply where_key_true.
    now apply find_some in Hf.
  - rewrite find_app_new; [|exact Hf|reflexivity].
    eexists; split; [reflexivity|]. split; reflexivity.
Qed.

Lemma get_cached_schedule_find tbl g d :
  get_cached_schedule tbl g d
  = List.find (where_key g (get_week_start d)) tbl.
Proof. unfold get_cached_schedule. now destruct (List.find _ tbl). Qed.

Lemma key_inj tbl a b :
  unique_keys tbl -> In a tbl -> In b tbl -> key a = key b -> a = b.
Proof.
  unfold unique_keys. induction tbl as [|x tbl IH]; simpl; [tauto|].
  intros Hnd Ha Hb Hk. apply NoDup_cons in Hnd as [Hx Hnd].
  rewrite list_elem_of_In in Hx.
  destruct Ha as [->|Ha], Hb as [->|Hb]; auto.
  - exfalso. apply Hx. rewrite Hk. now apply in_map.
  - exfalso. apply Hx. rewrite <- Hk. now apply in_map.
Qed.

Lemma id_inj tbl a b :
  unique_ids tbl -> In a tbl -> In b tbl ->
  ScheduleCache.id a = ScheduleCache.id b -> a = b.
Proof.
  unfold unique_ids. induction tbl as [|x tbl IH]; simpl; [tauto|].
  intros Hnd Ha Hb Hk. apply NoDup_cons in Hnd as [Hx Hnd].
  rewrite list_elem_of_In in Hx.
  destruct Ha as [->|Ha], Hb as [->|Hb]; auto.
  - exfalso. apply Hx. rewrite Hk. now apply in_map.
  - exfalso. apply Hx. rewrite <- Hk. now apply in_map.
Qed.

Lemma filter_key_absent g ws tbl :
  ~ In (g, ws) (map key tbl) -> List.filter (where_key g ws) tbl = [].
Proof.
  induction tbl as [|x tbl IH]; simpl; [reflexivity|]. intros Hno.
  destruct (where_key g ws x) eqn:Hw.
  - apply where_key_true in Hw. exfalso. apply Hno. now left.
  - apply IH. intros Hin. apply Hno. now right.
Qed.

Lemma count_key_one g ws tbl r :
  unique_keys tbl -> In r tbl -> key r = (g, ws) ->
  length (List.filter (where_key g ws) tbl) = 1%nat.
Proof.
  unfold unique_keys. induction tbl as [|x tbl IH]; simpl; [tauto|].
  intros Hnd Hin Hk. apply NoDup_cons in Hnd as [Hx Hnd].
  rewrite list_elem_of_In in Hx.
  destruct (where_key g ws x) eqn:Hw.
  - apply where_key_true in Hw. rewrite filter_key_absent; [reflexivity|].
    now rewrite <- Hw.
  - destruct Hin as [->|Hin]; [|now apply IH].
    apply where_key_true in Hk. congruence.
Qed.

Lemma lookup_map_row (f : row -> row) (tbl : table) (i : nat) :
  map f tbl !! i = f <$> (tbl !! i).
Proof.
  revert i. induction tbl as [|x tbl IH]; intros [|i]; simpl; auto.
Qed.

Lemma save_unique_keys now tbl g d data :
  unique_keys tbl -> unique_keys (save_schedule_to_cache now tbl g d data).
Proof.
  unfold unique_keys, save_schedule_to_cache. intros Hu.
  destruct (List.find (where_key g (get_week_start d)) tbl) as [e|] eqn:Hf.
  - now rewrite update_where_id_keys.
  - rewrite map_app. simpl. apply NoDup_app. split; [exact Hu|]. split.
    + intros k Hk Hk'. apply list_elem_of_In in Hk.
      apply list_elem_of_In in Hk'. destruct Hk' as [<-|[]].
      now apply (find_none_key _ _ _ Hf).
    + apply NoDup_singleton.
Qed.

(** The primary key stays a key when the storage layer allocates unused
    values. *)
Lemma save_unique_ids now tbl g d data :
  (forall t, ~ In (next_id t) (map ScheduleCache.id t)) ->
  unique_ids tbl -> unique_ids (save_schedule_to_cache now tbl g d data).
Proof.
  unfold unique_ids, save_schedule_to_cache. intros Hfresh Hu.
  destruct (List.find (where_key g (get_week_start d)) tbl) as [e|] eqn:Hf.
  - now rewrite update_where_id_ids.
  - rewrite map_app. simpl. apply NoDup_app. split; [exact Hu|]. split.
    + intros k Hk Hk'. apply list_elem_of_In in Hk.
      apply list_elem_of_In in Hk'. destruct Hk' as [<-|[]].
      now apply (Hfresh tbl).
    + apply NoDup_singleton.
Qed.

(** *** Properties of the schedule cache *)

(** C3. The constraint "at most one row per (group_id, week_start)" is kept by
    every [save_schedule_to_cache]; and a second save for the same group and
    week adds no row: the table keeps its length, exactly one row carries the
    key, and that row holds the second payload. *)
Theorem save_schedule_to_cache_keeps_one_row_per_key
    now1 now2 tbl g d1 d2 data1 data2 :
  unique_keys tbl ->
  get_week_start d2 = get_week_start d1 ->
  let t1 := save_schedule_to_cache now1 tbl g d1 data1 in
  let t2 := save_schedule_to_cache now2 t1 g d2 data2 in
  unique_keys t1 /\ unique_keys t2
  /\ length t2 = length t1
  /\ length (List.filter (where_key g (get_week_start d1)) t2) = 1%nat
  /\ (forall r, In r t2 -> key r = (g, get_week_start d1) ->
        ScheduleCache.data r = data2).
Proof.
  intros Hu Hw t1 t2.
  assert (Hu1 : unique_keys t1) by now apply save_unique_keys.
  assert (Hu2 : unique_keys t2) by now apply save_unique_keys.
  destruct (get_after_save now1 tbl g d1 data1) as (r1 & Hg1 & _ & Hk1).
  fold t1 in Hg1. rewrite get_cached_schedule_find in Hg1.
  assert (Ht2 : t2 = update_where_id (ScheduleCache.id r1) data2 now2 t1).
  { unfold t2, save_schedule_to_cache. now rewrite Hw, Hg1. }
  split; [exact Hu1|]. split; [exact Hu2|]. split.
  { rewrite Ht2. apply update_where_id_length. }
  pose proof (find_update_where_id _ _ _ data2 now2 _ Hg1) as Hf2.
  rewrite <- Ht2 in Hf2. apply find_some in Hf2 as [Hin2 Hk2].
  apply where_key_true in Hk2. split.
  - now apply (count_key_one _ _ t2 _ Hu2 Hin2).
  - intros r Hr Hk.
    assert (r = set_values data2 now2 r1) as ->; [|reflexivity].
    apply (key_inj t2); auto. congruence.
Qed.

(** C4. Under the primary-key constraint on [id]: when the scan finds a row
    for the key, the save changes that row's [data] to the new payload and
    its [updated_at] to the clock's value, keeps its [id], [group_id] and
    [week_start], and leaves every other row as it was, at its place; when
    the scan finds none, the table is the old table followed by one new row
    with the given group, the derived week start and the payload. *)
Theorem save_schedule_to_cache_frame now tbl g d data :
  unique_ids tbl ->
  let tbl' := save_schedule_to_cache now tbl g d data in
  match List.find (where_key g (get_week_start d)) tbl with
  | Some existing =>
      length tbl' = length tbl
      /\ forall (i : nat) r, tbl !! i = Some r ->
           (r = existing ->
            tbl' !! i
            = Some (ScheduleCache.mk (ScheduleCache.id r)
                      (ScheduleCache.group_id r) (ScheduleCache.week_start r)
                      data (Some now)))
           /\ (r <> existing -> tbl' !! i = Some r)
  | None =>
      exists new_cache,
        tbl' = tbl ++ [new_cache]
        /\ ScheduleCache.group_id new_cache = g
        /\ ScheduleCache.week_start new_cache = get_week_start d
        /\ ScheduleCache.data new_cache = data
  end.
Proof.
  intros Hu tbl'. unfold tbl', save_schedule_to_cache.
  destruct (List.find (where_key g (get_week_start d)) tbl) as [e|] eqn:Hf.
  - split; [apply update_where_id_length|].
    intros i r Hi. unfold update_where_id. rewrite lookup_map_row, Hi. simpl.
    split.
    + intros ->. now rewrite Z.eqb_refl.
    + intros Hne. destruct (ScheduleCache.id r =? ScheduleCache.id e) eqn:E;
        [|reflexivity].
      exfalso. apply Hne. apply Z.eqb_eq in E.
      apply (id_inj tbl); auto.
      * apply list_elem_of_In. eapply list_elem_of_lookup_2; eauto.
      * now apply find_some in Hf.
  - eexists. split; [reflexivity|]. repeat split.
Qed.

(** *** Properties of the user directory *)

(** C7. A telegram id that no [User] row carries gives [None], the ordinary
    result of the lookup. *)
Theorem get_user_group_id_unknown (users : list (User.t G)) telegram_id :
  (forall u, In u users -> User.telegram_id u <> telegram_id) ->
  get_user_group_id users telegram_id = None.
Proof.
  intros Hno. unfold get_user_group_id.
  destruct (List.find _ users) as [u|] eqn:Hf; [|reflexivity].
  apply find_some in Hf as [Hin Heq]. apply Z.eqb_eq in Heq.
  now apply Hno in Hin.
Qed.

(** C9. The lookup gives the same [None] for a directory without a row for
    the telegram id and for a directory whose row for that telegram id has a
    null [group_id]. *)
Theorem get_user_group_id_none_twofold
    (unknown known : list (User.t G)) telegram_id u :
  (forall x, In x unknown -> User.telegram_id x <> telegram_id) ->
  In u known ->
  User.telegram_id u = telegram_id ->
  (forall x, In x known -> User.telegram_id x = telegram_id -> x = u) ->
  User.group_id u = None ->
  get_user_group_id unknown telegram_id = None
  /\ get_user_group_id known telegram_id = None
  /\ get_user_group_id unknown telegram_id
     = get_user_group_id known telegram_id.
Proof.
  intros Hno Hin Htid Honly Hnull.
  assert (H1 : get_user_group_id unknown telegram_id = None).
  { unfold get_user_group_id.
    destruct (List.find _ unknown) as [x|] eqn:Hf; [|reflexivity].
    apply find_some in Hf as [Hx Heq]. apply Z.eqb_eq in Heq.
    now apply Hno in Hx. }
  assert (H2 : get_user_group_id known telegram_id = None).
  { unfold get_user_group_id.
    destruct (List.find _ known) as [x|] eqn:Hf; [|reflexivity].
    apply find_some in Hf as [Hx Heq]. apply Z.eqb_eq in Heq.
    rewrite (Honly x Hx Heq), Hnull. reflexivity. }
  rewrite H1, H2. auto.
Qed.

(** *** Further properties of the schedule cache *)

Lemma find_key_none_iff g ws tbl :
  List.find (where_key g ws) tbl = None <-> ~ In (g, ws) (map key tbl).
Proof.
  split; [apply find_none_key|].
  intros Hno. induction tbl as [|x tbl IH]; simpl; [reflexivity|].
  destruct (where_key g ws x) eqn:Hw.
  - apply where_key_true in Hw. exfalso. apply Hno. now left.
  - apply IH. intros Hin. apply Hno. now right.
Qed.

Lemma find_app_other g ws tbl r :
  key r <> (g, ws) ->
  List.find (where_key g ws) (tbl ++ [r]) = List.find (where_key g ws) tbl.
Proof.
  intros Hk. induction tbl as [|x tbl IH]; simpl.
  - destruct (where_key g ws r) eqn:Hw; [|reflexivity].
    now apply where_key_true in Hw.
  - now destruct (where_key g ws x).
Qed.

Lemma find_update_other g ws i data now tbl :
  (forall r, In r tbl -> key r = (g, ws) -> ScheduleCache.id r <> i) ->
  List.find (where_key g ws) (update_where_id i data now tbl)
  = List.find (where_key g ws) tbl.
Proof.
  induction tbl as [|x tbl IH]; simpl; [reflexivity|]. intros Hid.
  destruct (where_key g ws x) eqn:Hw.
  - assert (Hne : ScheduleCache.id x <> i).
    { apply Hid; [now left|]. now apply where_key_true. }
    apply Z.eqb_neq in Hne. now rewrite Hne, Hw.
  - assert (Hw' : where_key g ws
                    (if ScheduleCache.id x =? i
                     then set_values data now x else x) = false).
    { destruct (ScheduleCache.id x =? i); [|exact Hw].
      destruct (where_key g ws (set_values data now x)) eqn:E; [|reflexivity].
      apply where_key_true in E. rewrite set_values_key in E.
      apply where_key_true in E. congruence. }
    rewrite Hw'. apply IH. intros r Hr. apply Hid. now right.
Qed.

Lemma save_keys now tbl g d data :
  map key (save_schedule_to_cache now tbl g d data)
  = map key tbl
    ++ match get_cached_schedule tbl g d with
       | Some _ => []
       | None => [(g, get_week_start d)]
       end.
Proof.
  rewrite get_cached_schedule_find. unfold save_schedule_to_cache.
  destruct (List.find (where_key g (get_week_start d)) tbl) as [e|].
  - now rewrite update_where_id_keys, app_nil_r.
  - now rewrite map_app.
Qed.

(** X1. Counted with their multiplicity and without regard to the order of
    the scan, the keys after a save are the keys before it, together with the
    saved key when the read before the save finds no row for it: a save never
    drops a row and adds one exactly when that read finds none. *)
Theorem save_schedule_to_cache_keys now tbl g d data :
  Permutation
    (map key (save_schedule_to_cache now tbl g d data))
    (match get_cached_schedule tbl g d with
     | Some _ => []
     | None => [(g, get_week_start d)]
     end ++ map key tbl).
Proof. rewrite save_keys. apply Permutation_app_comm. Qed.

(** X2. A read after a save finds nothing exactly when it asks for another
    key than the saved one and found nothing before the save. *)
Theorem get_cached_schedule_after_save_none_iff now tbl g d data g' d' :
  get_cached_schedule (save_schedule_to_cache now tbl g d data) g' d' = None
  <-> (g', get_week_start d') <> (g, get_week_start d)
      /\ get_cached_schedule tbl g' d' = None.
Proof.
  rewrite !get_cached_schedule_find, !find_key_none_iff.
  rewrite save_keys, get_cached_schedule_find, in_app_iff.
  destruct (List.find (where_key g (get_week_start d)) tbl) as [e|] eqn:Hf.
  - simpl. split.
    + intros Hno. split; [|tauto]. intros Heq. apply Hno. left.
      rewrite Heq. apply find_some in Hf as [Hin Hk].
      apply where_key_true in Hk. rewrite <- Hk. now apply in_map.
    + intros [_ Hno] [Hin|[]]. now apply Hno.
  - simpl. split.
    + intros Hno. split; [|tauto]. intros Heq. apply Hno. right. left.
      now rewrite Heq.
    + intros [Hne Hno] [Hin|[Heq|[]]]; [now apply Hno|].
      now apply Hne.
Qed.

(** X3. With [id] a key of the table, a save for one (group, week) leaves
    what a read for any other (group, week) returns as it was. *)
Theorem get_cached_schedule_other_key_after_save now tbl g d data g' d' :
  unique_ids tbl ->
  (g', get_week_start d') <> (g, get_week_start d) ->
  get_cached_schedule (save_schedule_to_cache now tbl g d data) g' d'
  = get_cached_schedule tbl g' d'.
Proof.
  intros Hids Hne. rewrite !get_cached_schedule_find.
  unfold save_schedule_to_cache.
  destruct (List.find (where_key g (get_week_start d)) tbl) as [e|] eqn:Hf.
  - apply find_update_other. intros r Hr Hk Hid.
    apply find_some in Hf as [He Hke]. apply where_key_true in Hke.
    assert (r = e) by (apply (id_inj tbl); auto). subst r. congruence.
  - apply find_app_other. unfold key. simpl. congruence.
Qed.

(** X4. The cache is per week and the last writer wins: from a table with
    at most one row per (group, week), after two saves for one group on dates
    of one week, a read on any date of that week returns the row holding the
    second payload, stamped with the second save's clock, and that row is the
    only row of the table for the group and week. *)
Theorem get_cached_schedule_same_week_last_write
    now1 now2 tbl g d1 d2 d3 data1 data2 :
  unique_keys tbl ->
  get_week_start d2 = get_week_start d1 ->
  get_week_start d3 = get_week_start d1 ->
  let t2 :=
    save_schedule_to_cache now2
      (save_schedule_to_cache now1 tbl g d1 data1) g d2 data2 in
  exists r,
    get_cached_schedule t2 g d3 = Some r
    /\ ScheduleCache.data r = data2
    /\ ScheduleCache.updated_at r = Some now2
    /\ key r = (g, get_week_start d1)
    /\ (forall r', In r' t2 -> key r' = (g, get_week_start d1) -> r' = r).
Proof.
  intros Hu H2 H3 t2.
  assert (Hu2 : unique_keys t2) by (unfold t2; now do 2 apply save_unique_keys).
  destruct (get_after_save now1 tbl g d1 data1) as (r1 & Hg1 & _ & Hk1).
  rewrite get_cached_schedule_find in Hg1.
  assert (Hget : get_cached_schedule t2 g d3
                 = Some (set_values data2 now2 r1)).
  { rewrite get_cached_schedule_find, H3. unfold t2.
    unfold save_schedule_to_cache at 1. rewrite H2, Hg1.
    apply (find_update_where_id _ _ _ data2 now2 _ Hg1). }
  exists (set_values data2 now2 r1). split; [exact Hget|].
  split; [reflexivity|]. split; [reflexivity|].
  assert (Hk : key (set_values data2 now2 r1) = (g, get_week_start d1))
    by now rewrite set_values_key.
  split; [exact Hk|].
  intros r' Hr' Hk'. apply (key_inj t2); auto.
  - rewrite get_cached_schedule_find in Hget. now apply find_some in Hget.
  - congruence.
Qed.

(** *** Further properties of the user directory *)

Lemma lookup_only_row (users : list (User.t G)) telegram_id u :
  In u users ->
  User.telegram_id u = telegram_id ->
  (forall x, In x users -> User.telegram_id x = telegram_id -> x = u) ->
  get_user_group_id users telegram_id = User.group_id u.
Proof.
  intros Hin Htid Honly. unfold get_user_group_id.
  destruct (List.find _ users) as [x|] eqn:Hf.
  - apply find_some in Hf as [Hx Heq]. apply Z.eqb_eq in Heq.
    rewrite (Honly x Hx Heq). now destruct (User.group_id u).
  - exfalso. pose proof (find_none _ _ Hf u Hin) as Hu. simpl in Hu.
    apply Z.eqb_neq in Hu. congruence.
Qed.

(** X5. For a telegram id that exactly one [User] row carries, the lookup
    returns that row's [group_id] (a group, or [None] when it is null). *)
Theorem get_user_group_id_known (users : list (User.t G)) telegram_id u :
  In u users ->
  User.telegram_id u = telegram_id ->
  (forall x, In x users -> User.telegram_id x = telegram_id -> x = u) ->
  get_user_group_id users telegram_id = User.group_id u.
Proof. apply lookup_only_row. Qed.

(** *** Properties of the digest subscribers *)

Lemma in_join_settings (users : list (User.t G)) settings u s :
  In (u, s) (join_settings users settings)
  <-> In u users /\ In s settings /\ User.id u = UserSettings.user_id s.
Proof.
  unfold join_settings. rewrite in_flat_map. split.
  - intros (u' & Hu & Hin). apply in_map_iff in Hin as (s' & [= <- <-] & Hs).
    apply filter_In in Hs as [Hs Heq]. apply Z.eqb_eq in Heq. auto.
  - intros (Hu & Hs & Heq). exists u. split; [exact Hu|].
    apply in_map. apply filter_In. split; [exact Hs|]. now apply Z.eqb_eq.
Qed.

Lemma telegram_id_inj (users : list (User.t G)) a b :
  NoDup (map User.telegram_id users) ->
  In a users -> In b users ->
  User.telegram_id a = User.telegram_id b -> a = b.
Proof.
  induction users as [|x users IH]; simpl; [tauto|].
  intros Hnd Ha Hb Hk. apply NoDup_cons in Hnd as [Hx Hnd].
  rewrite list_elem_of_In in Hx.
  destruct Ha as [->|Ha], Hb as [->|Hb]; auto.
  - exfalso. apply Hx. rewrite Hk. now apply in_map.
  - exfalso. apply Hx. rewrite <- Hk. now apply in_map.
Qed.

Lemma settings_of_user_at_most_one settings (i : Z) :
  NoDup (map UserSettings.user_id settings) ->
  (length (List.filter (fun s => (i =? UserSettings.user_id s)%Z) settings)
   <= 1)%nat.
Proof.
  induction settings as [|s settings IH]; simpl; [lia|].
  intros Hnd. apply NoDup_cons in Hnd as [Hs Hnd].
  rewrite list_elem_of_In in Hs.
  destruct (i =? UserSettings.user_id s) eqn:E; [|now apply IH].
  apply Z.eqb_eq in E. simpl.
  destruct (List.filter _ settings) as [|s' rest] eqn:Hf; [simpl; lia|].
  exfalso. assert (Hin : In s' (s' :: rest)) by now left.
  rewrite <- Hf in Hin. apply filter_In in Hin as [Hin Heq].
  apply Z.eqb_eq in Heq. apply Hs. rewrite <- E, Heq. now apply in_map.
Qed.

(** The telegram ids of the joined pairs that pass a filter are distinct when
    telegram ids are distinct and no two settings rows refer to one user. *)
Lemma join_settings_nodup (users : list (User.t G)) settings
    (keep : User.t G * UserSettings.t -> bool) :
  NoDup (map User.telegram_id users) ->
  NoDup (map UserSettings.user_id settings) ->
  NoDup
    (map (fun us => User.telegram_id (fst us))
       (List.filter keep (join_settings users settings))).
Proof.
  intros Hu Hs. induction users as [|u users IH]; simpl; [constructor|].
  apply NoDup_cons in Hu as [Hx Hu]. rewrite list_elem_of_In in Hx.
  rewrite List.filter_app, map_app. apply NoDup_app. split; [|split].
  - pose proof (settings_of_user_at_most_one settings (User.id u) Hs) as Hle.
    destruct (List.filter (fun s => User.id u =? UserSettings.user_id s)
                settings) as [|s1 [|s2 rest]]; simpl in *; try lia.
    + constructor.
    + destruct (keep (u, s1)); simpl;
        [apply NoDup_singleton|constructor].
  - intros tid Hin1 Hin2. apply list_elem_of_In in Hin1.
    apply list_elem_of_In in Hin2.
    apply in_map_iff in Hin1 as ([u1 s1] & <- & H1).
    apply filter_In in H1 as [H1 _].
    apply in_map_iff in H1 as (s1' & [= <- <-] & _).
    apply in_map_iff in Hin2 as ([u2 s2] & Heq & H2).
    apply filter_In in H2 as [H2 _].
    apply in_join_settings in H2 as (H2 & _). simpl in Heq.
    apply Hx. rewrite <- Heq. now apply in_map.
  - now apply IH.
Qed.

(** X6. The today-digest query returns exactly the triples (telegram id,
    group, language) of a user and a settings row that refers to the user
    and has [today_schedule_digest] set; in particular a user without a
    settings row, or whose rows have the flag off, is not listed. *)
Theorem get_users_with_today_digest_spec
    (users : list (User.t G)) settings tid gid lang :
  In (tid, gid, lang) (get_users_with_today_digest users settings)
  <-> exists u s,
        In u users /\ In s settings
        /\ User.id u = UserSettings.user_id s
        /\ UserSettings.today_schedule_digest s = true
        /\ tid = User.telegram_id u /\ gid = User.group_id u
        /\ lang = UserSettings.language s.
Proof.
  unfold get_users_with_today_digest. rewrite in_map_iff. split.
  - intros ([u s] & [= <- <- <-] & Hin). apply filter_In in Hin as [Hin Hf].
    apply in_join_settings in Hin as (Hu & Hs & Heq). simpl in Hf.
    exists u, s. auto 10.
  - intros (u & s & Hu & Hs & Heq & Hf & -> & -> & ->).
    exists (u, s). split; [reflexivity|]. apply filter_In.
    split; [|exact Hf]. now apply in_join_settings.
Qed.

(** X7. The per-group query returns exactly the telegram ids of the users
    whose [group_id] is the given group and whom a settings row with
    [daily_digest] set refers to; a user with a null group is in no group's
    list. *)
Theorem get_students_by_group_with_digest_spec
    (users : list (User.t G)) settings g tid :
  In tid (get_students_by_group_with_digest users settings g)
  <-> exists u s,
        In u users /\ In s settings
        /\ User.id u = UserSettings.user_id s
        /\ User.group_id u = Some g
        /\ UserSettings.daily_digest s = true
        /\ tid = User.telegram_id u.
Proof.
  unfold get_students_by_group_with_digest. rewrite in_map_iff. split.
  - intros ([u s] & <- & Hin). apply filter_In in Hin as [Hin Hf].
    apply in_join_settings in Hin as (Hu & Hs & Heq). simpl in Hf.
    apply andb_true_iff in Hf as [Hg Hd]. apply bool_decide_eq_true in Hg.
    exists u, s. auto 10.
  - intros (u & s & Hu & Hs & Heq & Hg & Hd & ->).
    exists (u, s). split; [reflexivity|]. apply filter_In.
    split; [now apply in_join_settings|]. simpl.
    apply andb_true_iff. split; [now apply bool_decide_eq_true_2|exact Hd].
Qed.

(** X8. When telegram ids are distinct and no two settings rows refer to one
    user, neither query lists anyone twice: the telegram ids of the
    today-digest triples are distinct, and so are the students of a group. *)
Theorem digest_queries_list_nobody_twice (users : list (User.t G)) settings :
  NoDup (map User.telegram_id users) ->
  NoDup (map UserSettings.user_id settings) ->
  NoDup
    (map (fun t => fst (fst t)) (get_users_with_today_digest users settings))
  /\ forall g,
       NoDup (get_students_by_group_with_digest users settings g).
Proof.
  intros Hu Hs. split.
  - unfold get_users_with_today_digest. rewrite map_map. simpl.
    now apply join_settings_nodup.
  - intros g. unfold get_students_by_group_with_digest.
    now apply join_settings_nodup.
Qed.

(** X9. The queries agree with the user lookup: with distinct telegram ids,
    the group of a today-digest triple is what [get_user_group_id] returns
    for its telegram id, and the lookup of a student listed for a group
    returns that group. *)
Theorem digest_queries_agree_with_lookup
    (users : list (User.t G)) settings :
  NoDup (map User.telegram_id users) ->
  (forall tid gid lang,
     In (tid, gid, lang) (get_users_with_today_digest users settings) ->
     get_user_group_id users tid = gid)
  /\ (forall g tid,
        In tid (get_students_by_group_with_digest users settings g) ->
        get_user_group_id users tid = Some g).
Proof.
  intros Hnd. split.
  - intros tid gid lang Hin. unfold get_users_with_today_digest in Hin.
    apply in_map_iff in Hin as ([u s] & [= <- <- <-] & Hin).
    apply filter_In in Hin as [Hin _].
    apply in_join_settings in Hin as (Hu & _). simpl.
    apply lookup_only_row; [exact Hu|reflexivity|].
    intros x Hx Heq. now apply (telegram_id_inj users).
  - intros g tid Hin. unfold get_students_by_group_with_digest in Hin.
    apply in_map_iff in Hin as ([u s] & <- & Hin).
    apply filter_In in Hin as [Hin Hf].
    apply in_join_settings in Hin as (Hu & _). simpl in *.
    apply andb_true_iff in Hf as [Hg _]. apply bool_decide_eq_true in Hg.
    rewrite <- Hg. apply lookup_only_row; [exact Hu|reflexivity|].
    intros x Hx Heq. now apply (telegram_id_inj users).
Qed.

(** X10. Without a settings row that has the flag set, each query returns the
    empty list, whatever the users. *)
Theorem digest_queries_empty (users : list (User.t G)) settings :
  ((forall s, In s settings -> UserSettings.today_schedule_digest s = false) ->
   get_users_with_today_digest users settings = [])
  /\ ((forall s, In s settings -> UserSettings.daily_digest s = false) ->
      forall g, get_students_by_group_with_digest users settings g = []).
Proof.
  split.
  - intros Hoff. unfold get_users_with_today_digest.
    destruct (List.filter _ (join_settings users settings)) as [|[u s] l]
      eqn:Hf; [reflexivity|].
    exfalso. assert (Hin : In (u, s) ((u, s) :: l)) by now left.
    rewrite <- Hf in Hin. apply filter_In in Hin as [Hin Hon].
    apply in_join_settings in Hin as (_ & Hs & _). simpl in Hon.
    rewrite (Hoff s Hs) in Hon. discriminate.
  - intros Hoff g. unfold get_students_by_group_with_digest.
    destruct (List.filter _ (join_settings users settings)) as [|[u s] l]
      eqn:Hf; [reflexivity|].
    exfalso. assert (Hin : In (u, s) ((u, s) :: l)) by now left.
    rewrite <- Hf in Hin. apply filter_In in Hin as [Hin Hon].
    apply in_join_settings in Hin as (_ & Hs & _). simpl in Hon.
    rewrite (Hoff s Hs), andb_false_r in Hon. discriminate.
Qed.

(** *** The aggregator's loops, lesson by lesson and row by row *)

Lemma on_date_true T lesson :
  on_date T lesson = true <-> lesson_date lesson = Some T.
Proof. unfold on_date. apply bool_decide_eq_true. Qed.

Lemma for_lessons_appends T g items st :
  fst (for_lessons T g items st)
  = append_all g (List.filter (on_date T) (reached items)) st.
Proof.
  revert st. induction items as [|lesson rest IH]; intros st; simpl;
    [reflexivity|].
  destruct (lesson_date lesson) as [d|] eqn:Hd; simpl; [|reflexivity].
  rewrite IH.
  assert (Hon : on_date T lesson = bool_decide (d = T)).
  { unfold on_date. rewrite Hd. destruct (decide (d = T)) as [->|Hne].
    - now rewrite !bool_decide_eq_true_2.
    - rewrite !bool_decide_eq_false_2; congruence. }
  rewrite Hon. now destruct (bool_decide (d = T)).
Qed.

Lemma for_row_appends T st r :
  for_row T st r = append_all (ScheduleCache.group_id r) (row_lessons T r) st.
Proof.
  unfold for_row, row_lessons.
  destruct (json_loads (ScheduleCache.data r)) as [v|]; simpl; [|reflexivity].
  destruct (py_iter v) as [items|]; simpl; [|reflexivity].
  apply for_lessons_appends.
Qed.

Lemma reached_stops pre bad post :
  lesson_date bad = None -> reached (pre ++ bad :: post) = reached pre.
Proof.
  intros Hbad. induction pre as [|x pre IH]; simpl.
  - now rewrite Hbad.
  - destruct (lesson_date x); [now rewrite IH|reflexivity].
Qed.


Lemma reached_in pre lesson post :
  Forall (fun x => is_Some (lesson_date x)) pre ->
  is_Some (lesson_date lesson) ->
  In lesson (reached (pre ++ lesson :: post)).
Proof.
  intros Hpre [d Hd]. induction Hpre as [|x pre [dx Hx] _ IH]; simpl.
  - rewrite Hd. now left.
  - rewrite Hx. now right.
Qed.



Lemma bucket_append_lesson g lesson st g' :
  bucket (grouped (append_lesson g lesson st)) g'
  = bucket (grouped st) g' ++ (if bool_decide (g = g') then [lesson] else []).
Proof.
  unfold bucket, append_lesson. simpl.
  destruct (decide (g = g')) as [->|Hne].
  - rewrite lookup_insert_eq, bool_decide_eq_true_2 by reflexivity.
    reflexivity.
  - rewrite lookup_insert_ne, bool_decide_eq_false_2 by assumption.
    now rewrite app_nil_r.
Qed.

Lemma bucket_append_all g lessons st g' :
  bucket (grouped (append_all g lessons st)) g'
  = bucket (grouped st) g' ++ (if bool_decide (g = g') then lessons else []).
Proof.
  revert st. induction lessons as [|x lessons IH]; intros st; simpl.
  - destruct (bool_decide (g = g')); now rewrite app_nil_r.
  - change (append_all g (x :: lessons) st)
      with (append_all g lessons (append_lesson g x st)).
    rewrite IH, bucket_append_lesson.
    destruct (bool_decide (g = g')); simpl.
    + now rewrite <- app_assoc.
    + now rewrite !app_nil_r.
Qed.

Lemma bucket_fold_rows T rows st g :
  bucket (grouped (fold_left (for_row T) rows st)) g
  = bucket (grouped st) g ++ concat (map (row_lessons T) (rows_of g rows)).
Proof.
  revert st. induction rows as [|r rows IH]; intros st; simpl.
  - now rewrite app_nil_r.
  - rewrite IH, for_row_appends, bucket_append_all.
    destruct (decide (ScheduleCache.group_id r = g)) as [Hg|Hg].
    + rewrite !bool_decide_eq_true_2 by assumption. simpl.
      now rewrite <- app_assoc.
    + rewrite !bool_decide_eq_false_2 by assumption.
      now rewrite app_nil_r.
Qed.

(** The list under a key is the run of its rows' lessons, row after row. *)
Lemma bucket_get_all rows T g :
  bucket (get_all_group_schedules_today rows T) g
  = concat (map (row_lessons T) (rows_of g rows)).
Proof.
  unfold get_all_group_schedules_today, scan_rows.
  rewrite bucket_fold_rows. reflexivity.
Qed.






(** Rows whose lessons agree one by one aggregate alike. *)
Lemma fold_rows_ext T rows1 rows2 r r' st :
  ScheduleCache.group_id r' = ScheduleCache.group_id r ->
  row_lessons T r' = row_lessons T r ->
  fold_left (for_row T) (rows1 ++ r :: rows2) st
  = fold_left (for_row T) (rows1 ++ r' :: rows2) st.
Proof.
  intros Hg Hl. rewrite !fold_left_app. simpl.
  now rewrite !for_row_appends, Hg, Hl.
Qed.

Lemma fold_rows_skip T rows1 rows2 r st :
  row_lessons T r = [] ->
  fold_left (for_row T) (rows1 ++ r :: rows2) st
  = fold_left (for_row T) (rows1 ++ rows2) st.
Proof.
  intros Hl. rewrite !fold_left_app. simpl.
  now rewrite for_row_appends, Hl.
Qed.

(** *** Further properties of the aggregator *)

Lemma lesson_date_dict T lesson :
  lesson_date lesson = Some T -> exists members, lesson = JObj members.
Proof.
  destruct lesson; try discriminate. intros _. now eexists.
Qed.

Lemma reached_subset items lesson : In lesson (reached items) -> In lesson items.
Proof.
  induction items as [|x items IH]; simpl; [tauto|].
  destruct (lesson_date x); [|intros []].
  intros [->|Hin]; [now left|right; now apply IH].
Qed.

Lemma reached_strings {A} (f : A -> string) (l : list A) :
  reached (map (fun a => JStr (f a)) l) = [].
Proof. now destruct l. Qed.

(** A payload that decodes to something else than a list gives no lesson. *)
Lemma row_lessons_non_list T r v :
  json_loads (ScheduleCache.data r) = Some v ->
  (forall items, v <> JArr items) ->
  row_lessons T r = [].
Proof.
  intros Hv Hnl. unfold row_lessons. rewrite Hv. simpl.
  destruct v as [| | | s | items | members]; simpl; try reflexivity.
  - now rewrite (reached_strings (fun c => String c EmptyString)).
  - now destruct (Hnl items).
  - now rewrite (reached_strings fst).
Qed.

Lemma in_row_lessons T r lesson :
  In lesson (row_lessons T r) ->
  exists items,
    json_loads (ScheduleCache.data r) = Some (JArr items)
    /\ In lesson items /\ lesson_date lesson = Some T.
Proof.
  intros Hin.
  destruct (json_loads (ScheduleCache.data r)) as [v|] eqn:Hv;
    [|unfold row_lessons in Hin; rewrite Hv in Hin; destruct Hin].
  destruct v as [| | | s | items | members];
    try (rewrite (row_lessons_non_list T r _ Hv) in Hin by discriminate;
         destruct Hin).
  unfold row_lessons in Hin. rewrite Hv in Hin. simpl in Hin.
  apply filter_In in Hin as [Hin Hon]. apply on_date_true in Hon.
  exists items. split; [reflexivity|]. split; [|exact Hon].
  now apply reached_subset.
Qed.

Lemma in_bucket_get_all rows T g lesson :
  In lesson (bucket (get_all_group_schedules_today rows T) g)
  <-> exists r,
        In r rows /\ ScheduleCache.group_id r = g
        /\ In lesson (row_lessons T r).
Proof.
  rewrite bucket_get_all, in_concat. split.
  - intros (ls & Hls & Hin). apply in_map_iff in Hls as (r & <- & Hr).
    apply filter_In in Hr as [Hr Hg]. apply bool_decide_eq_true in Hg.
    eauto.
  - intros (r & Hr & Hg & Hin). exists (row_lessons T r).
    split; [|exact Hin]. apply in_map. apply filter_In.
    split; [exact Hr|]. now apply bool_decide_eq_true_2.
Qed.

(** X11. Nothing is made up: a lesson in a group's list is an element of the
    decoded list payload of some cached row of that group, it is a JSON
    object, and its date plus one day is the target date. *)
Theorem get_all_group_schedules_today_sound rows T g lesson :
  In lesson (bucket (get_all_group_schedules_today rows T) g) ->
  exists r items members,
    In r rows /\ ScheduleCache.group_id r = g
    /\ json_loads (ScheduleCache.data r) = Some (JArr items)
    /\ In lesson items
    /\ lesson = JObj members
    /\ lesson_date lesson = Some T.
Proof.
  intros Hin. apply in_bucket_get_all in Hin as (r & Hr & Hg & Hin).
  apply in_row_lessons in Hin as (items & Hv & Hin & Hd).
  destruct (lesson_date_dict _ _ Hd) as [members Hm].
  exists r, items, members. auto 10.
Qed.

(** X12. A row whose payload is valid JSON but not a list (an object, a text,
    a number, [true], [false] or [null]) contributes nothing: the result is
    that of the table without the row. *)
Theorem non_list_payload_contributes_nothing rows1 r rows2 T v :
  json_loads (ScheduleCache.data r) = Some v ->
  (forall items, v <> JArr items) ->
  get_all_group_schedules_today (rows1 ++ r :: rows2) T
  = get_all_group_schedules_today (rows1 ++ rows2) T.
Proof.
  intros Hv Hnl. unfold get_all_group_schedules_today, scan_rows.
  rewrite fold_rows_skip; [reflexivity|].
  now apply (row_lessons_non_list T r v).
Qed.

(** X13. A lesson is reported for one date only: the same lesson cannot be in
    the results for two different target dates, whatever the tables and the
    groups. *)
Theorem lesson_on_one_date_only rows1 rows2 T1 T2 g1 g2 lesson :
  In lesson (bucket (get_all_group_schedules_today rows1 T1) g1) ->
  In lesson (bucket (get_all_group_schedules_today rows2 T2) g2) ->
  T1 = T2.
Proof.
  intros H1 H2.
  apply in_bucket_get_all in H1 as (r1 & _ & _ & H1).
  apply in_bucket_get_all in H2 as (r2 & _ & _ & H2).
  apply in_row_lessons in H1 as (_ & _ & _ & H1).
  apply in_row_lessons in H2 as (_ & _ & _ & H2).
  congruence.
Qed.

(** X14. A group's list depends on that group's rows only: it is the list
    obtained from the table restricted to the rows of the group. *)
Theorem get_all_group_schedules_today_group_rows_only rows T g :
  bucket (get_all_group_schedules_today rows T) g
  = bucket
      (get_all_group_schedules_today
         (List.filter (fun r => bool_decide (ScheduleCache.group_id r = g))
            rows) T) g.
Proof.
  rewrite !bucket_get_all. unfold rows_of. f_equal. f_equal.
  induction rows as [|r rows IH]; simpl; [reflexivity|].
  destruct (bool_decide (ScheduleCache.group_id r = g)) eqn:Hg; simpl.
  - rewrite Hg. now f_equal.
  - exact IH.
Qed.

Lemma for_row_same_columns T st r r' :
  ScheduleCache.group_id r = ScheduleCache.group_id r' ->
  ScheduleCache.data r = ScheduleCache.data r' ->
  for_row T st r = for_row T st r'.
Proof. intros Hg Hd. unfold for_row. now rewrite Hg, Hd. Qed.

(** X15. The aggregator reads [group_id] and [data] only: two tables whose
    rows agree on these two columns, row by row, give the same result, so
    the week a row was cached for, its [id] and its age play no part. *)
Theorem get_all_group_schedules_today_reads_group_and_data rows rows' T :
  map (fun r => (ScheduleCache.group_id r, ScheduleCache.data r)) rows
  = map (fun r => (ScheduleCache.group_id r, ScheduleCache.data r)) rows' ->
  get_all_group_schedules_today rows T
  = get_all_group_schedules_today rows' T.
Proof.
  unfold get_all_group_schedules_today, scan_rows.
  generalize (ScanState ∅ 0). revert rows'.
  induction rows as [|r rows IH]; intros [|r' rows'] st Heq;
    try discriminate; [reflexivity|].
  simpl in Heq. injection Heq as Hg Hd Hrest. simpl.
  rewrite (for_row_same_columns T st r r' Hg Hd). now apply IH.
Qed.

Lemma lessons_total_append g lesson st :
  lessons_total (grouped (append_lesson g lesson st))
  = lessons_total (grouped st) + 1.
Proof.
  unfold lessons_total, append_lesson. simpl.
  assert (Hcomm : forall (z1 z2 : list json) (y : Z),
             y + Z.of_nat (length z2) + Z.of_nat (length z1)
             = y + Z.of_nat (length z1) + Z.of_nat (length z2))
    by (intros; lia).
  destruct (grouped st !! g) as [l|] eqn:Hl; simpl.
  - rewrite <- insert_delete_eq.
    rewrite map_fold_insert_L;
      [|intros; apply Hcomm|apply lookup_delete_eq].
    rewrite (map_fold_delete_L _ _ g l (grouped st));
      [|intros; apply Hcomm|exact Hl].
    rewrite length_app. simpl. lia.
  - rewrite map_fold_insert_L; [|intros; apply Hcomm|exact Hl].
    simpl. lia.
Qed.

Lemma lessons_total_append_all g lessons st :
  count st = lessons_total (grouped st) ->
  count (append_all g lessons st)
  = lessons_total (grouped (append_all g lessons st)).
Proof.
  revert st. induction lessons as [|x lessons IH]; intros st Hst; simpl;
    [exact Hst|].
  apply IH. rewrite lessons_total_append. simpl. now rewrite Hst.
Qed.

(** X16. The count the aggregator logs is the number of lessons it returns,
    summed over all groups. *)
Theorem get_all_group_schedules_today_count rows T :
  count (scan_rows T rows)
  = lessons_total (get_all_group_schedules_today rows T).
Proof.
  unfold get_all_group_schedules_today, scan_rows.
  assert (Hinit : count (ScanState ∅ 0) = lessons_total (grouped (ScanState ∅ 0))).
  { unfold lessons_total. simpl. now rewrite map_fold_empty. }
  revert Hinit. generalize (ScanState ∅ 0).
  induction rows as [|r rows IH]; intros st Hst; simpl; [exact Hst|].
  apply IH. rewrite for_row_appends. now apply lessons_total_append_all.
Qed.

(** X17. What is saved is what the digest sees: after a save of a payload
    that decodes to a list, a lesson of that list whose date plus one day is
    the target date, and before which every lesson has a date, is in the
    saved group's list of the aggregation of the table. *)
Theorem saved_lesson_reaches_digest
    now tbl g d data T pre lesson post :
  json_loads data = Some (JArr (pre ++ lesson :: post)) ->
  Forall (fun x => is_Some (lesson_date x)) pre ->
  lesson_date lesson = Some T ->
  In lesson
    (bucket
       (get_all_group_schedules_today
          (save_schedule_to_cache now tbl g d data) T) g).
Proof.
  intros Hdata Hpre Hd.
  destruct (get_after_save now tbl g d data) as (r & Hget & Hr & Hk).
  rewrite get_cached_schedule_find in Hget.
  apply find_some in Hget as [Hin _].
  apply in_bucket_get_all. exists r. split; [exact Hin|].
  split; [now injection Hk|].
  unfold row_lessons. rewrite Hr, Hdata. simpl. apply filter_In. split.
  - apply reached_in; [exact Hpre|]. rewrite Hd. now eexists.
  - now apply on_date_true.
Qed.

(** *** Properties of the aggregator *)

(** C5 (amended). The aggregation is a total function of the table and the
    date.  A row whose payload [json.loads] rejects adds nothing: the result
    is that of the table without the row.  A row with a lesson whose date
    cannot be computed (the field is missing or is not the text of a date)
    is cut short at that lesson: the result is that of the table in which
    the row's payload ends just before that lesson, so the matching lessons
    before it stay in the result and that lesson and the later ones add
    nothing.  The other rows are processed as they are in both cases. *)
Theorem get_all_group_schedules_today_failing_row rows1 r rows2 T :
  (json_loads (ScheduleCache.data r) = None ->
   get_all_group_schedules_today (rows1 ++ r :: rows2) T
   = get_all_group_schedules_today (rows1 ++ rows2) T)
  /\ (forall pre bad post r',
        json_loads (ScheduleCache.data r) = Some (JArr (pre ++ bad :: post)) ->
        lesson_date bad = None ->
        ScheduleCache.group_id r' = ScheduleCache.group_id r ->
        json_loads (ScheduleCache.data r') = Some (JArr pre) ->
        get_all_group_schedules_today (rows1 ++ r :: rows2) T
        = get_all_group_schedules_today (rows1 ++ r' :: rows2) T).
Proof.
  unfold get_all_group_schedules_today, scan_rows. split.
  - intros Hbad. rewrite fold_rows_skip; [reflexivity|].
    unfold row_lessons. now rewrite Hbad.
  - intros pre bad post r' Hr Hbad Hg Hr'.
    rewrite (fold_rows_ext T rows1 rows2 r r'); [reflexivity|exact Hg|].
    unfold row_lessons. rewrite Hr, Hr'. simpl.
    now rewrite reached_stops.
Qed.

(** C6 (amended). Take a row of the table whose payload decodes to a list,
    and in it a lesson that is a dictionary with a text under
    ["scheduleDate"] whose first 10 characters parse as the date [d], all the
    lessons before it in the payload being lessons whose date can be
    computed.  Then the lesson is in the row's group's list of the result for
    the target date [T] exactly when [d] plus one day is [T]. *)
Theorem lesson_included_iff_next_day
    rows r T pre lesson post members kv s d :
  In r rows ->
  json_loads (ScheduleCache.data r) = Some (JArr (pre ++ lesson :: post)) ->
  Forall (fun x => is_Some (lesson_date x)) pre ->
  lesson = JObj members ->
  List.find (fun kv => bool_decide (fst kv = "scheduleDate")) members
  = Some kv ->
  snd kv = JStr s ->
  fromisoformat (String.substring 0 10 s) = Some d ->
  In lesson
    (bucket (get_all_group_schedules_today rows T) (ScheduleCache.group_id r))
  <-> Date.add_days d 1 = Some T.
Proof.
  intros Hin Hdata Hpre -> Hfind Hs Hiso.
  assert (Hdate : lesson_date (JObj members) = Date.add_days d 1).
  { unfold lesson_date. simpl. rewrite Hfind, Hs. simpl. now rewrite Hiso. }
  rewrite bucket_get_all. split.
  - intros Hl. apply in_concat in Hl as (ls & Hls & Hl).
    apply in_map_iff in Hls as (r' & <- & _).
    unfold row_lessons in Hl.
    destruct (json_loads (ScheduleCache.data r') ≫= py_iter) as [items|];
      [|destruct Hl].
    apply filter_In in Hl as [_ Hon]. apply on_date_true in Hon.
    congruence.
  - intros HT. apply in_concat. exists (row_lessons T r). split.
    + apply in_map. unfold rows_of. apply filter_In. split; [exact Hin|].
      now apply bool_decide_eq_true_2.
    + unfold row_lessons. rewrite Hdata. simpl. apply filter_In. split.
      * apply reached_in; [exact Hpre|]. rewrite Hdate, HT. now eexists.
      * apply on_date_true. now rewrite Hdate.
Qed.



End Accessors.

(** ** Properties of the connection string *)

Lemma prefix_cons a p b s :
  String.prefix (String a p) (String b s) = true
  <-> a = b /\ String.prefix p s = true.
Proof.
  simpl. destruct (Ascii.ascii_dec a b) as [->|Hne].
  - tauto.
  - split; [discriminate|]. intros [? _]. contradiction.
Qed.

Lemma prefix_true_app p s :
  String.prefix p s = true -> exists r, s = p +:+ r.
Proof.
  revert s. induction p as [|a p IH]; intros s Hp.
  - now exists s.
  - destruct s as [|b s]; [discriminate|].
    apply prefix_cons in Hp as [-> Hp]. destruct (IH s Hp) as [r ->].
    now exists r.
Qed.

Lemma length_app_string p r :
  String.length (p +:+ r) = (String.length p + String.length r)%nat.
Proof.
  induction p as [|a p IH]; [reflexivity|].
  change (S (String.length (p +:+ r))
          = S (String.length p + String.length r)).
  now rewrite IH.
Qed.

Lemma DATABASE_URL_step_match r :
  DATABASE_URL ("postgresql://" +:+ r)
  = "postgresql+asyncpg://" +:+ DATABASE_URL r.
Proof. destruct r; reflexivity. Qed.

Lemma DATABASE_URL_step_copy c rest :
  String.prefix "postgresql://" (String c rest) = false ->
  DATABASE_URL (String c rest) = String c (DATABASE_URL rest).
Proof.
  intros Hp. unfold DATABASE_URL, str_replace.
  change (replace_from "postgresql://" "postgresql+asyncpg://" 0
            (String c rest))
    with (if String.prefix "postgresql://" (String c rest)
          then "postgresql+asyncpg://"
               +:+ replace_from "postgresql://" "postgresql+asyncpg://"
                     (String.length "postgresql://" - 1) rest
          else String c
                 (replace_from "postgresql://" "postgresql+asyncpg://" 0
                    rest)).
  now rewrite Hp.
Qed.

Lemma occurs_cons old c rest :
  occurs old (String c rest)
  = String.prefix old (String c rest) || occurs old rest.
Proof. reflexivity. Qed.

Lemma DATABASE_URL_no_occurrence_id s :
  occurs "postgresql://" s = false -> DATABASE_URL s = s.
Proof.
  induction s as [|c rest IH]; [reflexivity|].
  rewrite occurs_cons. intros Hocc. apply orb_false_iff in Hocc as [Hp Hr].
  rewrite DATABASE_URL_step_copy by exact Hp. now rewrite IH.
Qed.

Lemma occurs_behind_new u :
  occurs "postgresql://" ("postgresql+asyncpg://" +:+ u)
  = occurs "postgresql://" u.
Proof. reflexivity. Qed.

Lemma suffix_head (w p q : string) a :
  w = p +:+ String a q -> In a (String.list_ascii_of_string w).
Proof.
  revert w. induction p as [|b p IH]; intros w ->; simpl.
  - now left.
  - right. now apply IH.
Qed.

Lemma append_snoc p a q :
  (p +:+ String a EmptyString) +:+ q = p +:+ String a q.
Proof.
  induction p as [|b p IH]; [reflexivity|].
  change (String b ((p +:+ String a EmptyString) +:+ q)
          = String b (p +:+ String a q)).
  now rewrite IH.
Qed.

Lemma prefix_suffix_through q :
  (q = "postgresql://" \/ exists p, "ostgresql://" = p +:+ q) ->
  forall t,
    String.prefix q (DATABASE_URL t) = true -> String.prefix q t = true.
Proof.
  induction q as [|a q IH]; intros Hq t Hp; [now destruct t|].
  assert (Hq' : q = "postgresql://" \/ exists p, "ostgresql://" = p +:+ q).
  { right. destruct Hq as [Hq|[p Hp']].
    - exists EmptyString. now injection Hq as _ ->.
    - exists (p +:+ String a EmptyString). rewrite Hp'.
      symmetry. apply append_snoc. }
  destruct t as [|c rest]; [discriminate Hp|].
  destruct (String.prefix "postgresql://" (String c rest)) eqn:Hm.
  - destruct Hq as [->|[p Hsuf]]; [exact Hm|].
    exfalso. apply prefix_true_app in Hm as [r Hr]. rewrite Hr in Hp.
    rewrite DATABASE_URL_step_match in Hp.
    apply suffix_head in Hsuf.
    change ("postgresql+asyncpg://" +:+ DATABASE_URL r)
      with (String "p" ("ostgresql+asyncpg://" +:+ DATABASE_URL r)) in Hp.
    apply prefix_cons in Hp as [-> _].
    simpl in Hsuf. repeat (destruct Hsuf as [Hsuf|Hsuf]; [discriminate Hsuf|]).
    exact Hsuf.
  - rewrite DATABASE_URL_step_copy in Hp by exact Hm.
    apply prefix_cons in Hp as [-> Hp]. apply prefix_cons.
    split; [reflexivity|]. now apply IH.
Qed.

Lemma DATABASE_URL_no_occurrence_left s :
  occurs "postgresql://" (DATABASE_URL s) = false.
Proof.
  remember (String.length s) as n eqn:Hn.
  revert s Hn. induction n as [n IH] using lt_wf_ind. intros s Hn.
  destruct s as [|c rest]; [reflexivity|].
  destruct (String.prefix "postgresql://" (String c rest)) eqn:Hm.
  - apply prefix_true_app in Hm as [r Hr]. rewrite Hr.
    rewrite DATABASE_URL_step_match, occurs_behind_new.
    apply (IH (String.length r)); [|reflexivity].
    rewrite Hn, Hr, length_app_string. simpl. lia.
  - rewrite DATABASE_URL_step_copy by exact Hm. rewrite occurs_cons.
    apply orb_false_iff. split.
    + destruct (String.prefix "postgresql://" (String c (DATABASE_URL rest)))
        eqn:Hp; [|reflexivity].
      apply prefix_cons in Hp as [<- Hp].
      apply prefix_suffix_through in Hp.
      * assert (String.prefix "postgresql://" (String "p" rest) = true)
          by (apply prefix_cons; auto).
        congruence.
      * right. now exists EmptyString.
    + apply (IH (String.length rest)); [|reflexivity]. rewrite Hn. simpl. lia.
Qed.

(** X18. The rewritten connection string holds no [postgresql://] any more,
    and rewriting it again changes nothing. *)
Theorem DATABASE_URL_idempotent s :
  occurs "postgresql://" (DATABASE_URL s) = false
  /\ DATABASE_URL (DATABASE_URL s) = DATABASE_URL s.
Proof.
  split; [apply DATABASE_URL_no_occurrence_left|].
  apply DATABASE_URL_no_occurrence_id, DATABASE_URL_no_occurrence_left.
Qed.

(** X19. A connection string that starts with [postgresql://] and has no
    further [postgresql://] gets the scheme [postgresql+asyncpg://] and keeps
    the rest as it is. *)
Theorem DATABASE_URL_rewrites_scheme rest :
  occurs "postgresql://" rest = false ->
  DATABASE_URL ("postgresql://" +:+ rest) = "postgresql+asyncpg://" +:+ rest.
Proof.
  intros Hocc. rewrite DATABASE_URL_step_match.
  now rewrite DATABASE_URL_no_occurrence_id.
Qed.

(** X20. A connection string without [postgresql://] anywhere, such as one
    of another scheme or one that names the asyncpg driver already, is left
    as it is. *)
Theorem DATABASE_URL_unchanged s :
  occurs "postgresql://" s = false -> DATABASE_URL s = s.
Proof. apply DATABASE_URL_no_occurrence_id. Qed.

(** ** Worked examples *)

(** C3 at work: two saves for the same group in the same week, into an empty
    table. *)
Lemma save_schedule_to_cache_keeps_one_row_per_key_witness :
  let t1 :=
    save_schedule_to_cache monday_of ex_updated_at_default ex_next_id
      1710400000 [] ex_group (Date.mk 2024 3 12) "[]" in
  let t2 :=
    save_schedule_to_cache monday_of ex_updated_at_default ex_next_id
      1710500000 t1 ex_group ex_target ex_payload in
  unique_keys t1 /\ unique_keys t2
  /\ length t2 = length t1
  /\ length (List.filter (where_key ex_group (monday_of (Date.mk 2024 3 12)))
               t2) = 1%nat
  /\ (forall r, In r t2 -> key r = (ex_group, monday_of (Date.mk 2024 3 12)) ->
        ScheduleCache.data r = ex_payload).
Proof.
  apply (save_schedule_to_cache_keeps_one_row_per_key monday_of
           ex_updated_at_default ex_next_id 1710400000 1710500000 []
           ex_group (Date.mk 2024 3 12) ex_target "[]" ex_payload).
  - constructor.
  - reflexivity.
Defined.

(** C4 at work: a save that finds the first of two rows. *)
Lemma save_schedule_to_cache_frame_witness :
  let tbl := [ex_row; ex_row_other] in
  let tbl' :=
    save_schedule_to_cache monday_of ex_updated_at_default ex_next_id
      1710500000 tbl ex_group ex_target "[]" in
  length tbl' = length tbl
  /\ tbl' !! 0%nat
     = Some (ScheduleCache.mk 1 ex_group ex_week "[]" (Some 1710500000))
  /\ tbl' !! 1%nat = Some ex_row_other.
Proof.
  intros tbl tbl'.
  assert (Hids : unique_ids tbl).
  { unfold unique_ids, tbl. simpl. apply NoDup_cons_2.
    - intros Hin. apply list_elem_of_In in Hin. destruct Hin as [Hin|[]].
      discriminate Hin.
    - apply NoDup_singleton. }
  pose proof (save_schedule_to_cache_frame monday_of ex_updated_at_default
                ex_next_id 1710500000 tbl ex_group ex_target "[]" Hids)
    as Hframe.
  change (List.find (where_key ex_group (monday_of ex_target)) tbl)
    with (Some ex_row) in Hframe.
  destruct Hframe as [Hlen Hrows]. split; [exact Hlen|]. split.
  - exact (proj1 (Hrows 0%nat ex_row eq_refl) eq_refl).
  - apply (proj2 (Hrows 1%nat ex_row_other eq_refl)). discriminate.
Defined.

(** C7 at work: a telegram id of no user. *)
Lemma get_user_group_id_unknown_witness :
  get_user_group_id [ex_user; ex_user_no_group] 4242 = None.
Proof.
  apply get_user_group_id_unknown.
  intros u [<-|[<-|[]]]; discriminate.
Defined.

(** C9 at work: no user on one side, a user without a group on the other. *)
Lemma get_user_group_id_none_twofold_witness :
  get_user_group_id [ex_user] 1002 = None
  /\ get_user_group_id [ex_user; ex_user_no_group] 1002 = None
  /\ get_user_group_id [ex_user] 1002
     = get_user_group_id [ex_user; ex_user_no_group] 1002.
Proof.
  apply (get_user_group_id_none_twofold [ex_user]
           [ex_user; ex_user_no_group] 1002 ex_user_no_group).
  - intros x [<-|[]]. discriminate.
  - right. now left.
  - reflexivity.
  - intros x [<-|[<-|[]]]; [discriminate|reflexivity].
  - reflexivity.
Defined.

(** C5 at work: a row that is not JSON drops out; a row whose second lesson
    has no date counts as the row with the first lesson only. *)
Lemma get_all_group_schedules_today_failing_row_witness :
  get_all_group_schedules_today Json.loads Iso.fromisoformat
    [ex_row; ex_row_broken] ex_target
  = get_all_group_schedules_today Json.loads Iso.fromisoformat
      [ex_row] ex_target
  /\ get_all_group_schedules_today Json.loads Iso.fromisoformat
       [ex_row_cut] ex_target
     = get_all_group_schedules_today Json.loads Iso.fromisoformat
         [ex_row] ex_target.
Proof.
  split.
  - apply (proj1 (get_all_group_schedules_today_failing_row Json.loads
                    Iso.fromisoformat [ex_row] ex_row_broken [] ex_target)).
    vm_compute. reflexivity.
  - apply (proj2 (get_all_group_schedules_today_failing_row Json.loads
                    Iso.fromisoformat [] ex_row_cut [] ex_target)
             [ex_lesson] (JObj []) [] ex_row).
    + vm_compute. reflexivity.
    + vm_compute. reflexivity.
    + reflexivity.
    + vm_compute. reflexivity.
Defined.

(** C5, counterexample: "a row with a failing lesson contributes no lessons"
    does not hold; the row whose second lesson has no date still contributes
    its first lesson. *)
Lemma failing_row_still_contributes :
  ~ (forall (rows1 : list (ScheduleCache.t string)) r rows2 T,
       (Json.loads (ScheduleCache.data r) = None
        \/ exists items bad,
             Json.loads (ScheduleCache.data r) = Some (JArr items)
             /\ In bad items
             /\ lesson_date Iso.fromisoformat bad = None) ->
       get_all_group_schedules_today Json.loads Iso.fromisoformat
         (rows1 ++ r :: rows2) T
       = get_all_group_schedules_today Json.loads Iso.fromisoformat
           (rows1 ++ rows2) T).
Proof.
  intros Hclaim.
  assert (Hrow : Json.loads (ScheduleCache.data ex_row_cut) = None
                 \/ exists items bad,
                      Json.loads (ScheduleCache.data ex_row_cut)
                      = Some (JArr items)
                      /\ In bad items
                      /\ lesson_date Iso.fromisoformat bad = None).
  { right. exists [ex_lesson; JObj []], (JObj []).
    split; [vm_compute; reflexivity|].
    split; [right; now left|reflexivity]. }
  pose proof (Hclaim [] ex_row_cut [] ex_target Hrow) as Heq.
  apply (f_equal (fun m => m !! ex_group)) in Heq.
  vm_compute in Heq. discriminate Heq.
Qed.

(** C6 at work: the lesson dated 2024-03-14T19:00:00 is in the result for
    2024-03-15. *)
Lemma lesson_included_iff_next_day_witness :
  In ex_lesson
    (bucket (get_all_group_schedules_today Json.loads Iso.fromisoformat
               [ex_row] ex_target) ex_group).
Proof.
  apply (proj2 (lesson_included_iff_next_day Json.loads Iso.fromisoformat
                  [ex_row] ex_row ex_target [] ex_lesson []
                  [("scheduleDate", JStr "2024-03-14T19:00:00");
                   ("title", JStr "Algebra")]
                  ("scheduleDate", JStr "2024-03-14T19:00:00")
                  "2024-03-14T19:00:00" (Date.mk 2024 3 14)
                  (or_introl eq_refl) eq_refl (List.Forall_nil _) eq_refl
                  eq_refl eq_refl eq_refl)).
  reflexivity.
Defined.

(** C6, counterexample: "every well-formed lesson of a row is in the result
    exactly when its date plus one day is the target date" does not hold; the
    same lesson behind a lesson without a date is not in the result, though
    its date plus one day is the target date. *)
Lemma lesson_behind_failing_lesson_left_out :
  ~ (forall (rows : list (ScheduleCache.t string)) r T items lesson
            members kv s d,
       In r rows ->
       Json.loads (ScheduleCache.data r) = Some (JArr items) ->
       In lesson items ->
       lesson = JObj members ->
       List.find (fun kv => bool_decide (fst kv = "scheduleDate")) members
       = Some kv ->
       snd kv = JStr s ->
       Iso.fromisoformat (String.substring 0 10 s) = Some d ->
       In lesson
         (bucket (get_all_group_schedules_today Json.loads Iso.fromisoformat
                    rows T) (ScheduleCache.group_id r))
       <-> Date.add_days d 1 = Some T).
Proof.
  intros Hclaim.
  pose proof (Hclaim [ex_row_late] ex_row_late ex_target
                [JObj []; ex_lesson] ex_lesson
                [("scheduleDate", JStr "2024-03-14T19:00:00");
                 ("title", JStr "Algebra")]
                ("scheduleDate", JStr "2024-03-14T19:00:00")
                "2024-03-14T19:00:00" (Date.mk 2024 3 14)
                (or_introl eq_refl)) as Hiff.
  assert (Hin : In ex_lesson
                  (bucket (get_all_group_schedules_today Json.loads
                             Iso.fromisoformat [ex_row_late] ex_target)
                     (ScheduleCache.group_id ex_row_late))).
  { apply Hiff; try reflexivity. right. now left. }
  vm_compute in Hin. exact Hin.
Qed.


(** C1 on a table with one row for the key: the accessor hands back the row
    record, with its [id], its [week_start] and its [updated_at], where its
    annotation announces the payload text. *)
Theorem get_cached_schedule_returns_row :
  get_cached_schedule monday_of [ex_row] ex_group ex_target
  = Some (ScheduleCache.mk 1 ex_group ex_week ex_payload (Some 1710400000)).
Proof. reflexivity. Qed.

(** C2 on the empty table: reading back after a save gives the row that holds
    the payload, not the payload. *)
Theorem get_after_save_returns_row :
  get_cached_schedule monday_of
    (save_schedule_to_cache monday_of ex_updated_at_default ex_next_id
       1710500000 [] ex_group ex_target ex_payload)
    ex_group ex_target
  = Some (ScheduleCache.mk 1 ex_group ex_week ex_payload (Some 1710500000)).
Proof. reflexivity. Qed.

(** X3 at work: saving for one group leaves the read for another group's row
    as it was. *)
Lemma get_cached_schedule_other_key_after_save_witness :
  get_cached_schedule monday_of
    (save_schedule_to_cache monday_of ex_updated_at_default ex_next_id
       1710500000 [ex_row; ex_row_other] ex_group ex_target "[]")
    "CS-102" ex_target
  = get_cached_schedule monday_of [ex_row; ex_row_other] "CS-102" ex_target.
Proof.
  apply get_cached_schedule_other_key_after_save.
  - unfold unique_ids. simpl. apply NoDup_cons_2.
    + intros Hin. apply list_elem_of_In in Hin. destruct Hin as [Hin|[]].
      discriminate Hin.
    + apply NoDup_singleton.
  - intros Heq. discriminate Heq.
Defined.

(** X4 at work: saved on Tuesday and on Wednesday, read on Friday. *)
Lemma get_cached_schedule_same_week_last_write_witness :
  let t2 :=
    save_schedule_to_cache monday_of ex_updated_at_default ex_next_id
      1710300000
      (save_schedule_to_cache monday_of ex_updated_at_default ex_next_id
         1710200000 [ex_row_other] ex_group (Date.mk 2024 3 12) "[]")
      ex_group (Date.mk 2024 3 13) ex_payload in
  exists r,
    get_cached_schedule monday_of t2 ex_group ex_target = Some r
    /\ ScheduleCache.data r = ex_payload
    /\ ScheduleCache.updated_at r = Some 1710300000
    /\ key r = (ex_group, monday_of (Date.mk 2024 3 12))
    /\ (forall r', In r' t2 ->
          key r' = (ex_group, monday_of (Date.mk 2024 3 12)) -> r' = r).
Proof.
  apply (get_cached_schedule_same_week_last_write monday_of
           ex_updated_at_default ex_next_id 1710200000 1710300000
           [ex_row_other] ex_group (Date.mk 2024 3 12) (Date.mk 2024 3 13)
           ex_target).
  - unfold unique_keys. simpl. apply NoDup_singleton.
  - reflexivity.
  - reflexivity.
Defined.

(** X5 at work: the group of a known user. *)
Lemma get_user_group_id_known_witness :
  get_user_group_id [ex_user; ex_user_no_group] 1001 = Some ex_group.
Proof.
  apply (get_user_group_id_known [ex_user; ex_user_no_group] 1001 ex_user).
  - now left.
  - reflexivity.
  - intros x [<-|[<-|[]]]; [reflexivity|discriminate].
Defined.

(** X8 at work: three users, one settings row each. *)
Lemma digest_queries_list_nobody_twice_witness :
  NoDup
    (map (fun t => fst (fst t))
       (get_users_with_today_digest
          [ex_user; ex_user_no_group; ex_user_other] ex_settings))
  /\ forall g,
       NoDup
         (get_students_by_group_with_digest
            [ex_user; ex_user_no_group; ex_user_other] ex_settings g).
Proof.
  apply digest_queries_list_nobody_twice.
  - apply (bool_decide_unpack _). vm_compute. reflexivity.
  - apply (bool_decide_unpack _). vm_compute. reflexivity.
Defined.

(** X9 at work: the same users and settings. *)
Lemma digest_queries_agree_with_lookup_witness :
  (forall tid gid lang,
     In (tid, gid, lang)
       (get_users_with_today_digest
          [ex_user; ex_user_no_group; ex_user_other] ex_settings) ->
     get_user_group_id [ex_user; ex_user_no_group; ex_user_other] tid = gid)
  /\ (forall g tid,
        In tid
          (get_students_by_group_with_digest
             [ex_user; ex_user_no_group; ex_user_other] ex_settings g) ->
        get_user_group_id [ex_user; ex_user_no_group; ex_user_other] tid
        = Some g).
Proof.
  apply digest_queries_agree_with_lookup.
  apply (bool_decide_unpack _). vm_compute. reflexivity.
Defined.

(** X11 at work: where the lesson of the result for 2024-03-15 comes from. *)
Lemma get_all_group_schedules_today_sound_witness :
  exists r items members,
    In r [ex_row] /\ ScheduleCache.group_id r = ex_group
    /\ Json.loads (ScheduleCache.data r) = Some (JArr items)
    /\ In ex_lesson items
    /\ ex_lesson = JObj members
    /\ lesson_date Iso.fromisoformat ex_lesson = Some ex_target.
Proof.
  apply (get_all_group_schedules_today_sound Json.loads Iso.fromisoformat
           [ex_row] ex_target ex_group ex_lesson).
  vm_compute. now left.
Defined.

(** X12 at work: a payload that is a single lesson object. *)
Lemma non_list_payload_contributes_nothing_witness :
  get_all_group_schedules_today Json.loads Iso.fromisoformat
    [ex_row; ex_row_object] ex_target
  = get_all_group_schedules_today Json.loads Iso.fromisoformat
      [ex_row] ex_target.
Proof.
  apply (non_list_payload_contributes_nothing Json.loads Iso.fromisoformat
           [ex_row] ex_row_object [] ex_target
           (JObj [("scheduleDate", JStr "2024-03-14T19:00:00")])).
  - vm_compute. reflexivity.
  - discriminate.
Defined.

(** X13 at work: the lesson of the result for 2024-03-15, twice. *)
Lemma lesson_on_one_date_only_witness : ex_target = ex_target.
Proof.
  apply (lesson_on_one_date_only Json.loads Iso.fromisoformat
           [ex_row] [ex_row_cut] ex_target ex_target ex_group ex_group
           ex_lesson).
  - vm_compute. now left.
  - vm_compute. now left.
Defined.

(** X15 at work: the same payload cached under another id for an old week. *)
Lemma get_all_group_schedules_today_reads_group_and_data_witness :
  get_all_group_schedules_today Json.loads Iso.fromisoformat
    [ex_row] ex_target
  = get_all_group_schedules_today Json.loads Iso.fromisoformat
      [ex_row_old_week] ex_target.
Proof.
  apply get_all_group_schedules_today_reads_group_and_data. reflexivity.
Defined.

(** X17 at work: the payload saved into an empty table. *)
Lemma saved_lesson_reaches_digest_witness :
  In ex_lesson
    (bucket
       (get_all_group_schedules_today Json.loads Iso.fromisoformat
          (save_schedule_to_cache monday_of ex_updated_at_default ex_next_id
             1710500000 [] ex_group ex_target ex_payload) ex_target)
       ex_group).
Proof.
  apply (saved_lesson_reaches_digest monday_of ex_updated_at_default
           ex_next_id Json.loads Iso.fromisoformat 1710500000 [] ex_group
           ex_target ex_payload ex_target [] ex_lesson []).
  - vm_compute. reflexivity.
  - constructor.
  - vm_compute. reflexivity.
Defined.

(** X19 at work: a connection string of the usual form. *)
Lemma DATABASE_URL_rewrites_scheme_witness :
  DATABASE_URL "postgresql://bot:secret@db:5432/unibot"
  = "postgresql+asyncpg://bot:secret@db:5432/unibot".
Proof.
  apply (DATABASE_URL_rewrites_scheme "bot:secret@db:5432/unibot").
  vm_compute. reflexivity.
Defined.

(** X20 at work: a connection string that names the driver already. *)
Lemma DATABASE_URL_unchanged_witness :
  DATABASE_URL "postgresql+asyncpg://bot:secret@db:5432/unibot"
  = "postgresql+asyncpg://bot:secret@db:5432/unibot".
Proof.
  apply DATABASE_URL_unchanged. vm_compute. reflexivity.
Defined.
